(** * Deckard: session orchestration engine

    A shallow embedding of the Go sources of deckard (packages [model],
    [git], [forge], [tmux] and [tui]) together with the properties of the
    enrichment pipeline, the forge clients, the liveness probe and the
    Bubble Tea update function.

    Conventions.
    - A Go [string] is a sequence of bytes: [String.string].
    - A Go [*T] that is only tested against [nil] is an [option T].
    - A Go [error] is an [option string]: [None] is [nil], [Some e] is an
      error whose [Error()] text is [e].
    - Every external process ([git], [gh], [glab], [tmux]) is an oracle held
      in a record of the package that runs it; the Go standard library and
      the Bubbles widgets are interfaces (type classes). *)

From Stdlib Require Import String Ascii List ZArith Bool Lia DecimalString.
From stdpp Require Import base option list gmap sets strings.
Import ListNotations.

Local Open Scope string_scope.
Local Open Scope list_scope.

(** ** Outcome of running an external command *)

(** [exec.Cmd.Output()] / [CombinedOutput()]: the bytes written by the
    process and, when it failed, the text of the error. *)
Inductive cli_result : Type :=
| CliOk (out : string)
| CliErr (out : string) (err : string).

(** [cmd.Run() == nil] *)
Definition cli_ok (r : cli_result) : bool :=
  match r with CliOk _ => true | CliErr _ _ => false end.

(** The bytes a failing [Output()] still returns are ignored by callers that
    write [out, _ := ...]. *)
Definition cli_out (r : cli_result) : string :=
  match r with CliOk o => o | CliErr o _ => o end.

(** ** Running external programs *)

(** [exec.Command(name, args...)] with its working directory [Dir]. *)
Record command : Type := Command {
  cmd_name : string;
  cmd_args : list string;
  cmd_dir : string;
}.

(** What the host answers to a command that only reads ([git], [gh],
    [glab]); a time-out of the command's context is one of the failures. *)
Definition Exec : Type := command -> cli_result.

(** ** The part of Go's [strings] package the program calls *)

Module strings.

(** [strings.HasPrefix(s, prefix)] *)
Definition HasPrefix (s pre : string) : bool := String.prefix pre s.

Fixpoint drop (n : nat) (s : string) : string :=
  match n, s with
  | O, _ => s
  | S _, EmptyString => EmptyString
  | S k, String _ s' => drop k s'
  end.

(** [strings.TrimPrefix(s, prefix)] *)
Definition TrimPrefix (s pre : string) : string :=
  if HasPrefix s pre then drop (String.length pre) s else s.

(** [strings.Split(s, sep)] for a non-empty [sep]: the pieces between the
    non-overlapping occurrences of [sep], scanned from the left. [skip]
    counts the bytes of a matched separator still to be stepped over and
    [cur] is the current piece, reversed. *)
Fixpoint split_go (sep : string) (skip : nat) (cur : string) (s : string)
  : list string :=
  match s with
  | EmptyString => [String.rev cur]
  | String c s' =>
      match skip with
      | S k => split_go sep k cur s'
      | O =>
          if String.prefix sep s
          then String.rev cur :: split_go sep (String.length sep - 1) EmptyString s'
          else split_go sep 0 (String c cur) s'
      end
  end.

Definition Split (s sep : string) : list string := split_go sep 0 EmptyString s.

(** [strings.ReplaceAll(s, old, new)] for a non-empty [old]. *)
Fixpoint replace_go (old new : string) (skip : nat) (s : string) : string :=
  match s with
  | EmptyString => EmptyString
  | String c s' =>
      match skip with
      | S k => replace_go old new k s'
      | O =>
          if String.prefix old s
          then new +:+ replace_go old new (String.length old - 1) s'
          else String c (replace_go old new 0 s')
      end
  end.

Definition ReplaceAll (s old new : string) : string := replace_go old new 0 s.

(** [strings.Contains(s, substr)] *)
Fixpoint Contains (s sub : string) : bool :=
  String.prefix sub s ||
  match s with
  | EmptyString => false
  | String _ s' => Contains s' sub
  end.

(** [strings.Cut(s, sep)]: the text before and after the first [sep]. *)
Fixpoint cut_go (sep : string) (cur : string) (s : string) : option (string * string) :=
  if String.prefix sep s then Some (String.rev cur, drop (String.length sep) s)
  else match s with
       | EmptyString => None
       | String c s' => cut_go sep (String c cur) s'
       end.

Definition Cut (s sep : string) : option (string * string) := cut_go sep EmptyString s.

(** The ASCII fast path of [strings.ToLower]. *)
Definition isASCIIByte (c : ascii) : bool := (nat_of_ascii c <? 128)%nat.

Definition lowerByte (c : ascii) : ascii :=
  let n := nat_of_ascii c in
  if ((65 <=? n) && (n <=? 90))%nat then ascii_of_nat (n + 32) else c.

Fixpoint isASCII (s : string) : bool :=
  match s with
  | EmptyString => true
  | String c s' => isASCIIByte c && isASCII s'
  end.

Fixpoint lowerASCII (s : string) : string :=
  match s with
  | EmptyString => EmptyString
  | String c s' => String (lowerByte c) (lowerASCII s')
  end.

(** What the standard library does beyond bytes: Unicode white space and
    Unicode case mapping. *)
Class Unicode : Type := {
  (** [strings.TrimSpace] *)
  TrimSpace : string -> string;
  (** [strings.Map(unicode.ToLower, s)], the path [strings.ToLower] takes
      when [s] holds a byte outside ASCII *)
  MapToLower : string -> string;
}.

(** [strings.ToLower(s)] *)
Definition ToLower `{Unicode} (s : string) : string :=
  if isASCII s then lowerASCII s else MapToLower s.

End strings.

(** ** Package [model] *)

Module model.

(** [type PR struct] *)
Module PR.
Record t : Type := mk {
  Number : Z;
  Title : string;
  WebURL : string;
  State : string;
  PipelineStatus : string;
  HasUnresolved : bool;
  Draft : bool;
  Forge : string;
}.
End PR.

(** [type Session struct] *)
Module Session.
Record t : Type := mk {
  Path : string;
  Branch : string;
  Slug : string;
  NeedsInput : bool;
  TmuxRunning : bool;
  PR : option PR.t;
}.

(** The three assignments [fetchSessionsCmd] makes to a session. *)
Definition setTmuxRunning (b : bool) (s : t) : t :=
  mk (Path s) (Branch s) (Slug s) (NeedsInput s) b (PR s).
Definition setNeedsInput (b : bool) (s : t) : t :=
  mk (Path s) (Branch s) (Slug s) b (TmuxRunning s) (PR s).
Definition setPR (pr : option PR.t) (s : t) : t :=
  mk (Path s) (Branch s) (Slug s) (NeedsInput s) (TmuxRunning s) pr.
End Session.

End model.

(** ** Package [git] *)

Module git.

Section WithUnicode.
Context `{strings.Unicode}.

(** [func BranchToSlug(branch string) string] *)
Definition BranchToSlug (branch : string) : string :=
  if String.eqb branch "" then "unknown"
  else
    let s := strings.ToLower branch in
    let s := strings.ReplaceAll s "/" "-" in
    s.

(** The loop of [parseBlock] over the lines of the block: the state is
    [(path, branch, detached)]. *)
Definition parseLine (st : string * string * bool) (line : string)
  : string * string * bool :=
  let '(path, branch, detached) := st in
  if strings.HasPrefix line "worktree " then
    (strings.TrimPrefix line "worktree ", branch, detached)
  else if strings.HasPrefix line "branch " then
    (path, strings.TrimPrefix line "branch refs/heads/", detached)
  else if String.eqb line "detached" then
    (path, branch, true)
  else st.

Definition newline : string := String (ascii_of_nat 10) EmptyString.

(** [func parseBlock(block string) *model.Session] *)
Definition parseBlock (block : string) : option model.Session.t :=
  let '(path, branch, detached) :=
    fold_left parseLine (strings.Split block newline) ("", "", false) in
  if String.eqb path "" then None
  else
    let branch := if detached then "detached" else branch in
    Some {| model.Session.Path := path;
            model.Session.Branch := branch;
            model.Session.Slug := BranchToSlug branch;
            model.Session.NeedsInput := false;
            model.Session.TmuxRunning := false;
            model.Session.PR := None |}.

(** [func parseWorktrees(raw string) ([]model.Session, error)]; the
    error is always [nil]. *)
Definition parseWorktrees (raw : string) : list model.Session.t :=
  omap (fun block => parseBlock (strings.TrimSpace block))
       (strings.Split (strings.TrimSpace raw) (newline +:+ newline)).

(** [func ListWorktrees() ([]model.Session, error)] *)
Definition ListWorktrees (run : Exec)
  : list model.Session.t * option string :=
  match run (Command "git" ["worktree"; "list"; "--porcelain"] "") with
  | CliErr _ e => ([], Some ("git worktree list: " +:+ e))
  | CliOk out => (parseWorktrees out, None)
  end.

(** [func RepoRoot() (string, error)] *)
Definition RepoRoot (run : Exec) : string * option string :=
  match run (Command "git" ["rev-parse"; "--show-toplevel"] "") with
  | CliErr _ e => ("", Some ("git rev-parse: " +:+ e))
  | CliOk out => (strings.TrimSpace out, None)
  end.

End WithUnicode.

End git.

(** ** Package [forge] *)

Module forge.

(** [type CreateOpts struct] *)
Module CreateOpts.
Record t : Type := mk { Title : string; BaseBranch : string; Draft : bool }.
End CreateOpts.

(** [type UpdateOpts struct]; [Draft *bool] *)
Module UpdateOpts.
Record t : Type := mk { Draft : option bool }.
End UpdateOpts.

(** [type ghPR struct] *)
Module ghPR.
Record t : Type := mk {
  Number : Z;
  Title : string;
  State : string;
  URL : string;
  IsDraft : bool;
  StatusCheckRollup : string;
  ReviewDecision : string;
}.
End ghPR.

(** [type glabMR struct]; [Pipeline] is a pointer to a struct with the one
    field [Status]. *)
Module glabMR.
Record t : Type := mk {
  IID : Z;
  Title : string;
  State : string;
  WebURL : string;
  Draft : bool;
  Pipeline : option string;
  BlockingDiscussionsResolved : option bool;
}.
End glabMR.

(** [encoding/json]: [json.Unmarshal(out, &prs)] at the two slice types;
    [None] is a decoding error. *)
Class JSON : Type := {
  Unmarshal_ghPR : string -> option (list ghPR.t);
  Unmarshal_glabMR : string -> option (list glabMR.t);
}.

(** [func ghState(s string) string] *)
Definition ghState (s : string) : string :=
  if String.eqb s "OPEN" then "open"
  else if String.eqb s "MERGED" then "merged"
  else if String.eqb s "CLOSED" then "closed"
  else s.

(** [func ghCIStatus(s string) string] *)
Definition ghCIStatus (s : string) : string :=
  if String.eqb s "SUCCESS" then "success"
  else if String.eqb s "FAILURE" || String.eqb s "ERROR" then "failed"
  else if String.eqb s "PENDING" || String.eqb s "EXPECTED" || String.eqb s "STALE"
  then "pending"
  else if String.eqb s "" then ""
  else "pending".

(** [func normaliseState(s string) string] *)
Definition normaliseState (s : string) : string :=
  if String.eqb s "opened" then "open" else s.

(** [func trimOutput(b []byte) string] *)
Definition trimOutput (b : string) : string :=
  if (200 <? String.length b)%nat then String.substring 0 200 b +:+ "…" else b.

(** The search both [FetchPR] methods share: the first element whose raw
    state is the backend's open state, else element 0, else [nil]. *)
Definition pick {A : Type} (isOpen : A -> bool) (prs : list A) : option A :=
  match List.find isOpen prs with
  | Some p => Some p
  | None => head prs
  end.

Definition ghOfFound (found : ghPR.t) : model.PR.t :=
  {| model.PR.Number := ghPR.Number found;
     model.PR.Title := ghPR.Title found;
     model.PR.WebURL := ghPR.URL found;
     model.PR.State := ghState (ghPR.State found);
     model.PR.PipelineStatus := ghCIStatus (ghPR.StatusCheckRollup found);
     model.PR.HasUnresolved :=
       String.eqb (ghPR.ReviewDecision found) "CHANGES_REQUESTED"
       || String.eqb (ghPR.ReviewDecision found) "REVIEW_REQUIRED";
     model.PR.Draft := ghPR.IsDraft found;
     model.PR.Forge := "github" |}.

Definition glabOfFound (found : glabMR.t) : model.PR.t :=
  {| model.PR.Number := glabMR.IID found;
     model.PR.Title := glabMR.Title found;
     model.PR.WebURL := glabMR.WebURL found;
     model.PR.State := normaliseState (glabMR.State found);
     model.PR.PipelineStatus :=
       match glabMR.Pipeline found with Some st => st | None => "" end;
     model.PR.HasUnresolved :=
       match glabMR.BlockingDiscussionsResolved found with
       | Some r => negb r
       | None => false
       end;
     model.PR.Draft := glabMR.Draft found;
     model.PR.Forge := "gitlab" |}.

Definition ghListCmd (branch : string) : command :=
  Command "gh"
    ["pr"; "list"; "--head"; branch; "--state"; "all"; "--json";
     "number,title,state,url,isDraft,statusCheckRollup,reviewDecision"] "".

Definition glabListCmd (branch : string) : command :=
  Command "glab" ["mr"; "list"; "--source-branch"; branch; "-F"; "json"] "".

Section WithJSON.
Context `{JSON}.

(** [func (g *gitHub) FetchPR(branch string)], returning a [*model.PR] and an [error] *)
Definition gitHub_FetchPR (run : Exec) (branch : string)
  : option model.PR.t * option string :=
  match run (ghListCmd branch) with
  | CliErr _ _ => (None, None)
  | CliOk out =>
      match Unmarshal_ghPR out with
      | None => (None, None)
      | Some prs =>
          match pick (fun p => String.eqb (ghPR.State p) "OPEN") prs with
          | None => (None, None)
          | Some found => (Some (ghOfFound found), None)
          end
      end
  end.

(** [func (g *gitLab) FetchPR(branch string)], returning a [*model.PR] and an [error] *)
Definition gitLab_FetchPR (run : Exec) (branch : string)
  : option model.PR.t * option string :=
  match run (glabListCmd branch) with
  | CliErr _ _ => (None, None)
  | CliOk out =>
      match Unmarshal_glabMR out with
      | None => (None, None)
      | Some mrs =>
          match pick (fun p => String.eqb (glabMR.State p) "opened") mrs with
          | None => (None, None)
          | Some found => (Some (glabOfFound found), None)
          end
      end
  end.

(** [func (g *gitHub) CreatePR(opts CreateOpts)] *)
Definition gitHub_CreatePR (run : Exec) (opts : CreateOpts.t)
  : option model.PR.t * option string :=
  let args :=
    ["pr"; "create"; "--title"; CreateOpts.Title opts;
     "--base"; CreateOpts.BaseBranch opts; "--body"; ""] in
  let args := if CreateOpts.Draft opts then args ++ ["--draft"] else args in
  match run (Command "gh" args "") with
  | CliErr out _ => (None, Some ("gh pr create: " +:+ trimOutput out))
  | CliOk _ => (None, None)
  end.

(** [func (g *gitLab) CreatePR(opts CreateOpts)] *)
Definition gitLab_CreatePR (run : Exec) (opts : CreateOpts.t)
  : option model.PR.t * option string :=
  let args :=
    ["mr"; "create"; "--title"; CreateOpts.Title opts;
     "--target-branch"; CreateOpts.BaseBranch opts; "--yes"] in
  let args := if CreateOpts.Draft opts then args ++ ["--draft"] else args in
  match run (Command "glab" args "") with
  | CliErr out _ => (None, Some ("glab mr create: " +:+ trimOutput out))
  | CliOk _ => (None, None)
  end.

(** [fmt.Sprintf("%d", number)] *)
Definition decimal (number : Z) : string :=
  NilZero.string_of_int (Z.to_int number).

(** [func (g *gitHub) UpdatePR(number int, opts UpdateOpts)] *)
Definition gitHub_UpdatePR (run : Exec) (number : Z) (opts : UpdateOpts.t)
  : option model.PR.t * option string :=
  match UpdateOpts.Draft opts with
  | None => (None, None)
  | Some draft =>
      let args :=
        if draft then ["pr"; "ready"; decimal number; "--undo"]
        else ["pr"; "ready"; decimal number] in
      match run (Command "gh" args "") with
      | CliErr out _ => (None, Some ("gh pr update: " +:+ trimOutput out))
      | CliOk _ => (None, None)
      end
  end.

(** [func (g *gitLab) UpdatePR(number int, opts UpdateOpts)] *)
Definition gitLab_UpdatePR (run : Exec) (number : Z) (opts : UpdateOpts.t)
  : option model.PR.t * option string :=
  match UpdateOpts.Draft opts with
  | None => (None, None)
  | Some draft =>
      let args :=
        if draft then ["mr"; "update"; decimal number; "--draft"]
        else ["mr"; "update"; decimal number; "--ready"] in
      match run (Command "glab" args "") with
      | CliErr out _ => (None, Some ("glab mr update: " +:+ trimOutput out))
      | CliOk _ => (None, None)
      end
  end.

(** [type Forge interface]: the method set, each method run against the
    host's answers. *)
Record Forge : Type := mkForge {
  Kind : string;
  FetchPR : Exec -> string -> option model.PR.t * option string;
  CreatePR : Exec -> CreateOpts.t -> option model.PR.t * option string;
  UpdatePR : Exec -> Z -> UpdateOpts.t -> option model.PR.t * option string;
}.

(** [type gitHub struct{}] and [type gitLab struct{}] *)
Definition gitHub : Forge :=
  mkForge "github" gitHub_FetchPR gitHub_CreatePR gitHub_UpdatePR.
Definition gitLab : Forge :=
  mkForge "gitlab" gitLab_FetchPR gitLab_CreatePR gitLab_UpdatePR.

Context `{strings.Unicode}.

(** [func Detect(repoRoot string) Forge]; [None] is the [nil] interface
    value. *)
Definition Detect (run : Exec) (repoRoot : string) : option Forge :=
  match run (Command "git" ["-C"; repoRoot; "remote"; "get-url"; "origin"] "") with
  | CliErr _ _ => None
  | CliOk out =>
      let remote := strings.ToLower (strings.TrimSpace out) in
      if strings.Contains remote "github.com" then Some gitHub
      else if strings.Contains remote "gitlab" then Some gitLab
      else if cli_ok (run (Command "glab" ["repo"; "view"] repoRoot))
           then Some gitLab
           else None
  end.

(** [func DefaultBranch(repoRoot string) string] *)
Definition DefaultBranch (run : Exec) (repoRoot : string) : string :=
  match run (Command "git"
               ["-C"; repoRoot; "symbolic-ref"; "--short";
                "refs/remotes/origin/HEAD"] "") with
  | CliOk out =>
      match strings.Cut (strings.TrimSpace out) "/" with
      | Some (_, after) => after
      | None => "main"
      end
  | CliErr _ _ => "main"
  end.

End WithJSON.

End forge.

(** ** Package [tmux] *)

Module tmux.

Definition socketName : string := "deckard".

(** The tmux server on the Deckard socket, as the program sees it: the
    names registered on it, and what [capture-pane -t slug -p -J] prints
    at the sampling instants of one probe (0: now, 1: 300 ms later). *)
Record Server : Type := mkServer {
  sessions : gset string;
  capture_pane : string -> nat -> cli_result;
}.

(** The files the program writes. *)
Record Disk : Type := mkDisk {
  dirs : gset string;
  files : gmap string string;
}.

(** What the operating system decides. *)
Record Host : Type := mkHost {
  (** [os.UserConfigDir()] *)
  UserConfigDir : string + string;
  (** [filepath.Join] and [filepath.Dir] *)
  Join : list string -> string;
  Dir : string -> string;
  (** the directory [os.MkdirAll] has to create, with its ancestors *)
  ancestors : string -> gset string;
  (** the error of [os.MkdirAll(dir, 0755)] and of [os.WriteFile], if any *)
  mkdir_err : string -> option string;
  write_err : string -> option string;
  (** [tmux -L deckard -f cfg new-session -d -s slug -c path claude ...]
      for a name that is free *)
  spawn : string -> string -> string -> cli_result;
}.

(** [func SessionExists(slug string) bool]: [has-session -t slug] succeeds. *)
Definition SessionExists (srv : Server) (slug : string) : bool :=
  bool_decide (slug ∈ sessions srv).

(** [func NeedsInput(slug string) bool]: the error of either snapshot is
    dropped, the bytes are compared. *)
Definition NeedsInput (srv : Server) (slug : string) : bool :=
  let a := cli_out (capture_pane srv slug 0) in
  let b := cli_out (capture_pane srv slug 1) in
  String.eqb a b.

Definition conf : string :=
  "# Deckard tmux config — do not edit manually" +:+ git.newline +:+
  "# Ctrl+] returns you to the Deckard dashboard without stopping Claude" +:+ git.newline +:+
  "bind-key -n C-] detach-client" +:+ git.newline +:+
  "# Mouse wheel / PageUp enters scroll mode so you can read long plans" +:+ git.newline +:+
  "set -g mouse on" +:+ git.newline +:+
  "bind-key -n PageUp copy-mode" +:+ git.newline.

(** [func configPath() (string, error)] *)
Definition configPath (h : Host) (d : Disk) : Disk * (string * option string) :=
  match UserConfigDir h with
  | inr e => (d, ("", Some ("user config dir: " +:+ e)))
  | inl dir =>
      let p := Join h [dir; "deckard"; "tmux.conf"] in
      match mkdir_err h (Dir h p) with
      | Some e => (d, ("", Some ("mkdir: " +:+ e)))
      | None =>
          let d := mkDisk (dirs d ∪ ancestors h (Dir h p)) (files d) in
          match write_err h p with
          | Some e => (d, ("", Some ("write config: " +:+ e)))
          | None => (mkDisk (dirs d) (<[p := conf]> (files d)), (p, None))
          end
      end
  end.

(** [tmux new-session -d -s slug]: refused for a name already taken. *)
Definition new_session (h : Host) (srv : Server) (cfgPath slug path : string)
  : Server * cli_result :=
  if bool_decide (slug ∈ sessions srv)
  then (srv, CliErr ("duplicate session: " +:+ slug) "exit status 1")
  else match spawn h cfgPath slug path with
       | CliOk out => (mkServer ({[slug]} ∪ sessions srv) (capture_pane srv), CliOk out)
       | CliErr out e => (srv, CliErr out e)
       end.

(** [func EnsureSession(slug, path string) error] *)
Definition EnsureSession (h : Host) (st : Server * Disk) (slug path : string)
  : (Server * Disk) * option string :=
  let '(srv, d) := st in
  if SessionExists srv slug then (st, None)
  else
    match configPath h d with
    | (d, (_, Some err)) => ((srv, d), Some err)
    | (d, (cfgPath, None)) =>
        match new_session h srv cfgPath slug path with
        | (srv, CliErr out _) => ((srv, d), Some ("new-session: " +:+ out))
        | (srv, CliOk _) => ((srv, d), None)
        end
    end.

End tmux.

(** ** Package [tui] *)

Module tui.

(** [type appState int] *)
Inductive appState : Type :=
| stateNormal
| stateNewSession
| stateCommitType
| stateCommit
| stateDeleteConfirm
| stateCreatePR
| stateManagePR.

(** [type createPRField int] *)
Inductive createPRField : Type := fieldTitle | fieldBase | fieldDraft.

(** [type statusLevel int] *)
Inductive statusLevel : Type := statusInfo | statusWarn | statusError.

(** [type ccType struct] and the table [commitTypes] *)
Record ccType : Type := mkCC { key : string; typ : string; label : string }.

Definition commitTypes : list ccType :=
  [ mkCC "f" "feat" "new feature";
    mkCC "x" "fix" "bug fix";
    mkCC "r" "refactor" "code restructure";
    mkCC "d" "docs" "documentation";
    mkCC "t" "test" "tests";
    mkCC "c" "chore" "maintenance";
    mkCC "i" "ci" "CI/CD";
    mkCC "p" "perf" "performance" ].

Definition spinnerFrames : list string := ["|"; "/"; "-"; "\"].

(** [type sessionItem struct] *)
Record sessionItem : Type := mkItem {
  s : model.Session.t;
  spinnerChar : string;
}.

(** The messages [Update] receives. [KeyMsg] carries [msg.String()];
    [otherMsg] is any message of a type [Update] has no case for. *)
Inductive Msg : Type :=
| WindowSizeMsg (Width Height : Z)
| KeyMsg (name : string)
| tickMsg
| clearStatusMsg
| sessionsLoadedMsg (sessions : list model.Session.t) (err : option string)
| worktreeCreatedMsg (slug path : string) (err : option string)
| sessionEnsuredMsg (slug : string) (err : option string)
| claudeExitedMsg (err : option string)
| commitResultMsg (err : option string)
| worktreeRemovedMsg (err : option string)
| pushResultMsg (err : option string)
| prCreatedMsg (err : option string)
| prUpdatedMsg (err : option string)
| otherMsg (tag : string).

(** The Bubbles widgets ([textinput.Model], [list.Model]) through the
    methods the program calls. *)
Class Bubbles : Type := {
  textinput : Type;
  listModel : Type;
  widgetCmd : Type;
  (** [textinput.New()] followed by the assignments of [Placeholder] and
      [CharLimit] *)
  textinput_New : string -> Z -> textinput;
  Value : textinput -> string;
  SetValue : string -> textinput -> textinput;
  Reset : textinput -> textinput;
  Focus : textinput -> textinput;
  Blur : textinput -> textinput;
  SetPlaceholder : string -> textinput -> textinput;
  textinput_Update : textinput -> Msg -> textinput * option widgetCmd;
  (** [list.New] with the settings of [New()] *)
  list_New : listModel;
  Index : listModel -> Z;
  SetItems : list sessionItem -> listModel -> listModel;
  SetSize : Z -> Z -> listModel -> listModel;
  list_Update : listModel -> Msg -> listModel * option widgetCmd;
}.

(** [tea.Cmd]: the closures the program hands to the runtime, named after
    the functions that build them. *)
Module Cmd.
Section WithBubbles.
Context `{Bubbles}.

#[warnings="-register-all"]
Inductive t : Type :=
| Quit
| Blink
| Widget (c : widgetCmd)
| Batch (cmds : list t)
| tickCmd
| clearStatusCmd
| fetchSessionsCmd (f : option forge.Forge)
| createWorktreeCmd (repoRoot branch : string)
| ensureAndAttachCmd (s : model.Session.t)
| ExecProcess (slug : string)
| commitCmd (path message : string)
| pushCmd (repoPath branch : string)
| createPRCmd (f : option forge.Forge) (repoPath branch : string)
              (opts : forge.CreateOpts.t)
| updatePRCmd (f : option forge.Forge) (number : Z) (opts : forge.UpdateOpts.t)
| openURLCmd (url : string)
| deleteWorktreeCmd (repoRoot path branch : string).

(** A widget's command, [nil] included, as a [tea.Cmd]. *)
Definition ofWidget (c : option widgetCmd) : option t :=
  match c with Some c => Some (Widget c) | None => None end.
End WithBubbles.
End Cmd.

(** [type Model struct] *)
Module Model.
Section WithBubbles.
Context `{Bubbles}.

Record t : Type := mk {
  list : listModel;
  sessions : Datatypes.list model.Session.t;
  width : Z;
  height : Z;
  loading : bool;
  err : option string;
  repoRoot : string;
  forge : option forge.Forge;
  state : appState;
  nameInput : textinput;
  inputErr : string;
  spinnerFrame : Z;
  commitType : string;
  createPRTitle : textinput;
  createPRBase : textinput;
  createPRDraft : bool;
  createPRField : createPRField;
  statusText : string;
  statusLevel : statusLevel;
}.

Definition set_list (v : _) (m : t) : t :=
  mk v (sessions m) (width m) (height m) (loading m) (err m) (repoRoot m) (forge m) (state m) (nameInput m) (inputErr m) (spinnerFrame m) (commitType m) (createPRTitle m) (createPRBase m) (createPRDraft m) (createPRField m) (statusText m) (statusLevel m).
Definition set_sessions (v : _) (m : t) : t :=
  mk (list m) v (width m) (height m) (loading m) (err m) (repoRoot m) (forge m) (state m) (nameInput m) (inputErr m) (spinnerFrame m) (commitType m) (createPRTitle m) (createPRBase m) (createPRDraft m) (createPRField m) (statusText m) (statusLevel m).
Definition set_width (v : _) (m : t) : t :=
  mk (list m) (sessions m) v (height m) (loading m) (err m) (repoRoot m) (forge m) (state m) (nameInput m) (inputErr m) (spinnerFrame m) (commitType m) (createPRTitle m) (createPRBase m) (createPRDraft m) (createPRField m) (statusText m) (statusLevel m).
Definition set_height (v : _) (m : t) : t :=
  mk (list m) (sessions m) (width m) v (loading m) (err m) (repoRoot m) (forge m) (state m) (nameInput m) (inputErr m) (spinnerFrame m) (commitType m) (createPRTitle m) (createPRBase m) (createPRDraft m) (createPRField m) (statusText m) (statusLevel m).
Definition set_loading (v : _) (m : t) : t :=
  mk (list m) (sessions m) (width m) (height m) v (err m) (repoRoot m) (forge m) (state m) (nameInput m) (inputErr m) (spinnerFrame m) (commitType m) (createPRTitle m) (createPRBase m) (createPRDraft m) (createPRField m) (statusText m) (statusLevel m).
Definition set_err (v : _) (m : t) : t :=
  mk (list m) (sessions m) (width m) (height m) (loading m) v (repoRoot m) (forge m) (state m) (nameInput m) (inputErr m) (spinnerFrame m) (commitType m) (createPRTitle m) (createPRBase m) (createPRDraft m) (createPRField m) (statusText m) (statusLevel m).
Definition set_repoRoot (v : _) (m : t) : t :=
  mk (list m) (sessions m) (width m) (height m) (loading m) (err m) v (forge m) (state m) (nameInput m) (inputErr m) (spinnerFrame m) (commitType m) (createPRTitle m) (createPRBase m) (createPRDraft m) (createPRField m) (statusText m) (statusLevel m).
Definition set_forge (v : _) (m : t) : t :=
  mk (list m) (sessions m) (width m) (height m) (loading m) (err m) (repoRoot m) v (state m) (nameInput m) (inputErr m) (spinnerFrame m) (commitType m) (createPRTitle m) (createPRBase m) (createPRDraft m) (createPRField m) (statusText m) (statusLevel m).
Definition set_state (v : _) (m : t) : t :=
  mk (list m) (sessions m) (width m) (height m) (loading m) (err m) (repoRoot m) (forge m) v (nameInput m) (inputErr m) (spinnerFrame m) (commitType m) (createPRTitle m) (createPRBase m) (createPRDraft m) (createPRField m) (statusText m) (statusLevel m).
Definition set_nameInput (v : _) (m : t) : t :=
  mk (list m) (sessions m) (width m) (height m) (loading m) (err m) (repoRoot m) (forge m) (state m) v (inputErr m) (spinnerFrame m) (commitType m) (createPRTitle m) (createPRBase m) (createPRDraft m) (createPRField m) (statusText m) (statusLevel m).
Definition set_inputErr (v : _) (m : t) : t :=
  mk (list m) (sessions m) (width m) (height m) (loading m) (err m) (repoRoot m) (forge m) (state m) (nameInput m) v (spinnerFrame m) (commitType m) (createPRTitle m) (createPRBase m) (createPRDraft m) (createPRField m) (statusText m) (statusLevel m).
Definition set_spinnerFrame (v : _) (m : t) : t :=
  mk (list m) (sessions m) (width m) (height m) (loading m) (err m) (repoRoot m) (forge m) (state m) (nameInput m) (inputErr m) v (commitType m) (createPRTitle m) (createPRBase m) (createPRDraft m) (createPRField m) (statusText m) (statusLevel m).
Definition set_commitType (v : _) (m : t) : t :=
  mk (list m) (sessions m) (width m) (height m) (loading m) (err m) (repoRoot m) (forge m) (state m) (nameInput m) (inputErr m) (spinnerFrame m) v (createPRTitle m) (createPRBase m) (createPRDraft m) (createPRField m) (statusText m) (statusLevel m).
Definition set_createPRTitle (v : _) (m : t) : t :=
  mk (list m) (sessions m) (width m) (height m) (loading m) (err m) (repoRoot m) (forge m) (state m) (nameInput m) (inputErr m) (spinnerFrame m) (commitType m) v (createPRBase m) (createPRDraft m) (createPRField m) (statusText m) (statusLevel m).
Definition set_createPRBase (v : _) (m : t) : t :=
  mk (list m) (sessions m) (width m) (height m) (loading m) (err m) (repoRoot m) (forge m) (state m) (nameInput m) (inputErr m) (spinnerFrame m) (commitType m) (createPRTitle m) v (createPRDraft m) (createPRField m) (statusText m) (statusLevel m).
Definition set_createPRDraft (v : _) (m : t) : t :=
  mk (list m) (sessions m) (width m) (height m) (loading m) (err m) (repoRoot m) (forge m) (state m) (nameInput m) (inputErr m) (spinnerFrame m) (commitType m) (createPRTitle m) (createPRBase m) v (createPRField m) (statusText m) (statusLevel m).
Definition set_createPRField (v : _) (m : t) : t :=
  mk (list m) (sessions m) (width m) (height m) (loading m) (err m) (repoRoot m) (forge m) (state m) (nameInput m) (inputErr m) (spinnerFrame m) (commitType m) (createPRTitle m) (createPRBase m) (createPRDraft m) v (statusText m) (statusLevel m).
Definition set_statusText (v : _) (m : t) : t :=
  mk (list m) (sessions m) (width m) (height m) (loading m) (err m) (repoRoot m) (forge m) (state m) (nameInput m) (inputErr m) (spinnerFrame m) (commitType m) (createPRTitle m) (createPRBase m) (createPRDraft m) (createPRField m) v (statusLevel m).
Definition set_statusLevel (v : _) (m : t) : t :=
  mk (list m) (sessions m) (width m) (height m) (loading m) (err m) (repoRoot m) (forge m) (state m) (nameInput m) (inputErr m) (spinnerFrame m) (commitType m) (createPRTitle m) (createPRBase m) (createPRDraft m) (createPRField m) (statusText m) v.
End WithBubbles.
End Model.

(** *** The enrichment cycle *)

(** What one cycle reads: the answers of [git], [gh] and [glab], and the
    tmux server. *)
Record World : Type := mkWorld {
  run : Exec;
  tmuxd : tmux.Server;
}.

(** The probes a cycle calls, recorded in the order one goroutine makes
    them. *)
Inductive Event : Type :=
| CallSessionExists (slug : string)
| CallNeedsInput (slug : string)
| CallFetchPR (kind branch : string).

(** A computation that records its probe calls. *)
Definition Probe (A : Type) : Type := (A * list Event)%type.

Definition ret {A : Type} (a : A) : Probe A := (a, []).

Definition bind {A B : Type} (m : Probe A) (k : A -> Probe B) : Probe B :=
  let '(a, t1) := m in
  let '(b, t2) := k a in
  (b, t1 ++ t2).

Definition call {A : Type} (e : Event) (a : A) : Probe A := (a, [e]).

Notation "x <- m ;; k" := (bind m (fun x => k))
  (at level 100, m at next level, right associativity).

(** All goroutines of a cycle, joined by [wg.Wait()]: goroutine [i] reads
    and writes [sessions[i]] only, so the slice after the barrier is the
    element-wise result; the log lists the calls goroutine by goroutine. *)
Fixpoint forEach {A B : Type} (body : A -> Probe B) (l : list A) : Probe (list B) :=
  match l with
  | [] => ret []
  | a :: l' =>
      b <- body a ;;
      bs <- forEach body l' ;;
      ret (b :: bs)
  end.

(** The body of the goroutine [fetchSessionsCmd] starts for [sessions[i]]. *)
Definition enrich (w : World) (f : option forge.Forge) (s : model.Session.t)
  : Probe model.Session.t :=
  running <- call (CallSessionExists (model.Session.Slug s))
                  (tmux.SessionExists (tmuxd w) (model.Session.Slug s)) ;;
  let s := model.Session.setTmuxRunning running s in
  s <- (if model.Session.TmuxRunning s
        then
          idle <- call (CallNeedsInput (model.Session.Slug s))
                       (tmux.NeedsInput (tmuxd w) (model.Session.Slug s)) ;;
          ret (model.Session.setNeedsInput idle s)
        else ret s) ;;
  match f with
  | None => ret s
  | Some f =>
      r <- call (CallFetchPR (forge.Kind f) (model.Session.Branch s))
                (forge.FetchPR f (run w) (model.Session.Branch s)) ;;
      let pr := fst r in
      let s := model.Session.setPR pr s in
      match pr with
      | Some pr =>
          ret (model.Session.setNeedsInput
                 (String.eqb (model.PR.PipelineStatus pr) "failed"
                  || model.PR.HasUnresolved pr) s)
      | None => ret s
      end
  end.

Section WithLibraries.
Context `{strings.Unicode} `{forge.JSON} `{Bubbles}.

(** [func (m *Model) fetchSessionsCmd() tea.Msg], for [m.forge = f]. *)
Definition fetchSessionsCmd (w : World) (f : option forge.Forge) : Probe Msg :=
  match git.ListWorktrees (run w) with
  | (_, Some err) => ret (sessionsLoadedMsg [] (Some err))
  | (sessions, None) =>
      sessions <- forEach (enrich w f) sessions ;;
      ret (sessionsLoadedMsg sessions None)
  end.

(** [func ensureAndAttachCmd(s model.Session) tea.Cmd], run. *)
Definition ensureAndAttach (h : tmux.Host) (st : tmux.Server * tmux.Disk)
  (s : model.Session.t) : (tmux.Server * tmux.Disk) * Msg :=
  match tmux.EnsureSession h st (model.Session.Slug s) (model.Session.Path s) with
  | (st, Some err) => (st, sessionEnsuredMsg "" (Some err))
  | (st, None) => (st, sessionEnsuredMsg (model.Session.Slug s) None)
  end.


(** [c] is dispatched by [cmd]: it is [cmd] or sits in a batch of it. *)
Fixpoint dispatches (isC : Cmd.t -> bool) (cmd : Cmd.t) : bool :=
  isC cmd ||
  match cmd with
  | Cmd.Batch cmds => existsb (dispatches isC) cmds
  | _ => false
  end.


(** *** The model *)

(** [func New() Model] *)
Definition New (run : Exec) : Model.t :=
  let root := fst (git.RepoRoot run) in
  let f := forge.Detect run root in
  let l := list_New in
  let ti := textinput_New "e.g. phase-2-gitlab-mr-linking" 100 in
  let prTitle := textinput_New "short description" 120 in
  let prBase := textinput_New "main" 60 in
  let prBase :=
    if negb (String.eqb root "")
    then SetValue (forge.DefaultBranch run root) prBase
    else SetValue "main" prBase in
  {| Model.list := l;
     Model.sessions := [];
     Model.width := 0;
     Model.height := 0;
     Model.loading := true;
     Model.err := None;
     Model.repoRoot := root;
     Model.forge := f;
     Model.state := stateNormal;
     Model.nameInput := ti;
     Model.inputErr := "";
     Model.spinnerFrame := 0;
     Model.commitType := "";
     Model.createPRTitle := prTitle;
     Model.createPRBase := prBase;
     Model.createPRDraft := false;
     Model.createPRField := fieldTitle;
     Model.statusText := "";
     Model.statusLevel := statusInfo |}.

(** [func (m *Model) buildItems()]; [spinnerFrames[m.spinnerFrame]] is in
    range because the frame is kept below [len(spinnerFrames)]. *)
Definition buildItems (m : Model.t) : Model.t :=
  let char := nth (Z.to_nat (Model.spinnerFrame m)) spinnerFrames "" in
  let items := map (fun s => mkItem s char) (Model.sessions m) in
  Model.set_list (SetItems items (Model.list m)) m.

(** [func (m Model) selectedSession() *model.Session] *)
Definition selectedSession (m : Model.t) : option model.Session.t :=
  if (length (Model.sessions m) =? 0)%nat then None
  else
    let idx := Index (Model.list m) in
    if (idx <? 0)%Z || (Z.of_nat (length (Model.sessions m)) <=? idx)%Z then None
    else Model.sessions m !! Z.to_nat idx.

(** [func (m *Model) setStatus(level statusLevel, text string)] *)
Definition setStatus (level : statusLevel) (text : string) (m : Model.t) : Model.t :=
  let m := Model.set_statusText text m in
  Model.set_statusLevel level m.

(** [func (m Model) listDimensions() (width, height int)] *)
Definition listDimensions (m : Model.t) : Z * Z :=
  (Z.quot (Model.width m) 3, (Model.height m - 3)%Z).

(** [func slugToTitle(branch string) string]; [strings.SplitN(branch, "/", 2)]
    has two parts exactly when [branch] holds a slash. *)
Definition slugToTitle (branch : string) : string :=
  let slug :=
    match strings.Cut branch "/" with
    | Some (part0, part1) => part0 +:+ ": " +:+ part1
    | None => branch
    end in
  strings.ReplaceAll slug "-" " ".

End WithLibraries.

(** *** The update function *)

Section Update.
Context `{strings.Unicode} `{Bubbles}.
Variable run : Exec.

(** [err == nil] *)
Definition isNil (e : option string) : bool :=
  match e with None => true | Some _ => false end.

(** [msg.String() == name] *)
Definition keyIs (k name : string) : bool := String.eqb k name.

(** [func (m Model) enterCreatePR(s *model.Session) (tea.Model, tea.Cmd)] *)
Definition enterCreatePR (m : Model.t) (s : model.Session.t)
  : Model.t * option Cmd.t :=
  let m := Model.set_state stateCreatePR m in
  let m := Model.set_inputErr "" m in
  let m := Model.set_createPRDraft false m in
  let m := Model.set_createPRField fieldTitle m in
  let title := slugToTitle (model.Session.Branch s) in
  let m := Model.set_createPRTitle (Reset (Model.createPRTitle m)) m in
  let m := Model.set_createPRTitle (SetValue title (Model.createPRTitle m)) m in
  let m := Model.set_createPRTitle (Focus (Model.createPRTitle m)) m in
  let base := forge.DefaultBranch run (Model.repoRoot m) in
  let m := Model.set_createPRBase (Reset (Model.createPRBase m)) m in
  let m := Model.set_createPRBase (SetValue base (Model.createPRBase m)) m in
  let m := Model.set_createPRBase (Blur (Model.createPRBase m)) m in
  (m, Some Cmd.Blink).

(** [func (m Model) updateNormal(msg tea.Msg) (tea.Model, tea.Cmd)] *)
Definition updateNormal (m : Model.t) (msg : Msg) : Model.t * option Cmd.t :=
  let toList :=
    let '(l, cmd) := list_Update (Model.list m) msg in
    (Model.set_list l m, Cmd.ofWidget cmd) in
  match msg with
  | KeyMsg k =>
      if keyIs k "ctrl+c" || keyIs k "q" then (m, Some Cmd.Quit)
      else if keyIs k "r" then
        let m := Model.set_loading true m in
        (m, Some (Cmd.fetchSessionsCmd (Model.forge m)))
      else if keyIs k "n" then
        let m := Model.set_state stateNewSession m in
        let m := Model.set_inputErr "" m in
        let m := Model.set_nameInput
                   (SetPlaceholder "e.g. phase-2-gitlab-mr-linking" (Model.nameInput m)) m in
        let m := Model.set_nameInput (Reset (Model.nameInput m)) m in
        let m := Model.set_nameInput (Focus (Model.nameInput m)) m in
        (m, Some Cmd.Blink)
      else if keyIs k "c" then
        match selectedSession m with
        | Some _ =>
            let m := Model.set_state stateCommitType m in
            let m := Model.set_commitType "" m in
            let m := Model.set_inputErr "" m in
            (m, None)
        | None => (m, None)
        end
      else if keyIs k "p" then
        match selectedSession m with
        | Some s =>
            (m, Some (Cmd.pushCmd (model.Session.Path s) (model.Session.Branch s)))
        | None => (m, None)
        end
      else if keyIs k "o" then
        match selectedSession m with
        | Some s =>
            match model.Session.PR s with
            | Some pr =>
                if negb (String.eqb (model.PR.WebURL pr) "")
                then (m, Some (Cmd.openURLCmd (model.PR.WebURL pr)))
                else (m, None)
            | None => (m, None)
            end
        | None => (m, None)
        end
      else if keyIs k "m" then
        match selectedSession m, Model.forge m with
        | Some s, Some _ =>
            match model.Session.PR s with
            | None => enterCreatePR m s
            | Some _ =>
                let m := Model.set_state stateManagePR m in
                let m := Model.set_inputErr "" m in
                (m, None)
            end
        | _, _ => (m, None)
        end
      else if keyIs k "d" then
        match selectedSession m with
        | Some s =>
            if negb (String.eqb (model.Session.Path s) (Model.repoRoot m))
            then
              let m := Model.set_state stateDeleteConfirm m in
              let m := Model.set_inputErr "" m in
              (m, None)
            else (m, None)
        | None => (m, None)
        end
      else if keyIs k "enter" then
        match selectedSession m with
        | Some s => (m, Some (Cmd.ensureAndAttachCmd s))
        | None => (m, None)
        end
      else toList
  | _ => toList
  end.

(** [func (m Model) updateCreatePR(msg tea.Msg) (tea.Model, tea.Cmd)] *)
Definition updateCreatePR (m : Model.t) (msg : Msg) : Model.t * option Cmd.t :=
  let toField :=
    match Model.createPRField m with
    | fieldTitle =>
        let '(t, cmd) := textinput_Update (Model.createPRTitle m) msg in
        (Model.set_createPRTitle t m, Cmd.ofWidget cmd)
    | fieldBase =>
        let '(t, cmd) := textinput_Update (Model.createPRBase m) msg in
        (Model.set_createPRBase t m, Cmd.ofWidget cmd)
    | fieldDraft => (m, None)
    end in
  match msg with
  | KeyMsg k =>
      if keyIs k "esc" then
        let m := Model.set_state stateNormal m in
        let m := Model.set_inputErr "" m in
        let m := Model.set_createPRTitle (Blur (Model.createPRTitle m)) m in
        let m := Model.set_createPRBase (Blur (Model.createPRBase m)) m in
        (m, None)
      else if keyIs k "tab" then
        let m :=
          match Model.createPRField m with
          | fieldTitle =>
              let m := Model.set_createPRField fieldBase m in
              let m := Model.set_createPRTitle (Blur (Model.createPRTitle m)) m in
              Model.set_createPRBase (Focus (Model.createPRBase m)) m
          | fieldBase =>
              let m := Model.set_createPRField fieldDraft m in
              Model.set_createPRBase (Blur (Model.createPRBase m)) m
          | fieldDraft =>
              let m := Model.set_createPRField fieldTitle m in
              Model.set_createPRTitle (Focus (Model.createPRTitle m)) m
          end in
        (m, Some Cmd.Blink)
      else if keyIs k " " then
        match Model.createPRField m with
        | fieldDraft =>
            (Model.set_createPRDraft (negb (Model.createPRDraft m)) m, None)
        | _ => toField
        end
      else if keyIs k "enter" then
        let title := strings.TrimSpace (Value (Model.createPRTitle m)) in
        let base := strings.TrimSpace (Value (Model.createPRBase m)) in
        if String.eqb title "" then
          (Model.set_inputErr "title cannot be empty" m, None)
        else if String.eqb base "" then
          (Model.set_inputErr "base branch cannot be empty" m, None)
        else
          match selectedSession m with
          | None => (Model.set_inputErr "no session selected" m, None)
          | Some s =>
              let m := Model.set_inputErr "" m in
              let m := Model.set_createPRTitle (Blur (Model.createPRTitle m)) m in
              let m := Model.set_createPRBase (Blur (Model.createPRBase m)) m in
              (m, Some (Cmd.createPRCmd (Model.forge m)
                          (model.Session.Path s) (model.Session.Branch s)
                          (forge.CreateOpts.mk title base (Model.createPRDraft m))))
          end
      else toField
  | _ => toField
  end.

(** [func (m Model) updateManagePR(msg tea.Msg) (tea.Model, tea.Cmd)] *)
Definition updateManagePR (m : Model.t) (msg : Msg) : Model.t * option Cmd.t :=
  let setDraft (draft : bool) :=
    match selectedSession m with
    | Some s =>
        match model.Session.PR s with
        | Some pr =>
            (m, Some (Cmd.updatePRCmd (Model.forge m) (model.PR.Number pr)
                        (forge.UpdateOpts.mk (Some draft))))
        | None => (Model.set_state stateNormal m, None)
        end
    | None => (Model.set_state stateNormal m, None)
    end in
  match msg with
  | KeyMsg k =>
      if keyIs k "esc" then (Model.set_state stateNormal m, None)
      else if keyIs k "p" then setDraft false
      else if keyIs k "d" then setDraft true
      else if keyIs k "o" then
        match selectedSession m with
        | Some s =>
            match model.Session.PR s with
            | Some pr =>
                if negb (String.eqb (model.PR.WebURL pr) "")
                then (Model.set_state stateNormal m,
                      Some (Cmd.openURLCmd (model.PR.WebURL pr)))
                else (Model.set_state stateNormal m, None)
            | None => (Model.set_state stateNormal m, None)
            end
        | None => (Model.set_state stateNormal m, None)
        end
      else (m, None)
  | _ => (m, None)
  end.

(** [func (m Model) updateNewSession(msg tea.Msg) (tea.Model, tea.Cmd)] *)
Definition updateNewSession (m : Model.t) (msg : Msg) : Model.t * option Cmd.t :=
  let toInput :=
    let '(t, cmd) := textinput_Update (Model.nameInput m) msg in
    (Model.set_nameInput t m, Cmd.ofWidget cmd) in
  match msg with
  | KeyMsg k =>
      if keyIs k "esc" then
        let m := Model.set_state stateNormal m in
        let m := Model.set_inputErr "" m in
        let m := Model.set_nameInput (Blur (Model.nameInput m)) m in
        (m, None)
      else if keyIs k "enter" then
        let branch := strings.TrimSpace (Value (Model.nameInput m)) in
        if String.eqb branch "" then
          (Model.set_inputErr "branch name cannot be empty" m, None)
        else if String.eqb (Model.repoRoot m) "" then
          (Model.set_inputErr "could not determine git repo root" m, None)
        else
          let m := Model.set_inputErr "" m in
          (m, Some (Cmd.createWorktreeCmd (Model.repoRoot m) branch))
      else toInput
  | _ => toInput
  end.

(** [func (m Model) updateCommitType(msg tea.Msg) (tea.Model, tea.Cmd)] *)
Definition updateCommitType (m : Model.t) (msg : Msg) : Model.t * option Cmd.t :=
  match msg with
  | KeyMsg k =>
      if keyIs k "esc" then
        let m := Model.set_state stateNormal m in
        let m := Model.set_inputErr "" m in
        (m, None)
      else
        match List.find (fun t => keyIs k (key t)) commitTypes with
        | Some t =>
            let m := Model.set_commitType (typ t) m in
            let m := Model.set_state stateCommit m in
            let m := Model.set_inputErr "" m in
            let m := Model.set_nameInput
                       (SetPlaceholder "short description" (Model.nameInput m)) m in
            let m := Model.set_nameInput (Reset (Model.nameInput m)) m in
            let m := Model.set_nameInput (Focus (Model.nameInput m)) m in
            (m, Some Cmd.Blink)
        | None => (m, None)
        end
  | _ => (m, None)
  end.

(** [func (m Model) updateCommit(msg tea.Msg) (tea.Model, tea.Cmd)] *)
Definition updateCommit (m : Model.t) (msg : Msg) : Model.t * option Cmd.t :=
  let toInput :=
    let '(t, cmd) := textinput_Update (Model.nameInput m) msg in
    (Model.set_nameInput t m, Cmd.ofWidget cmd) in
  match msg with
  | KeyMsg k =>
      if keyIs k "esc" then
        let m := Model.set_state stateCommitType m in
        let m := Model.set_inputErr "" m in
        let m := Model.set_nameInput (Blur (Model.nameInput m)) m in
        (m, None)
      else if keyIs k "enter" then
        let desc := strings.TrimSpace (Value (Model.nameInput m)) in
        if String.eqb desc "" then
          (Model.set_inputErr "description cannot be empty" m, None)
        else
          match selectedSession m with
          | None => (Model.set_inputErr "no session selected" m, None)
          | Some s =>
              let m := Model.set_inputErr "" m in
              (m, Some (Cmd.commitCmd (model.Session.Path s)
                          (Model.commitType m +:+ ": " +:+ desc)))
          end
      else toInput
  | _ => toInput
  end.

(** [func (m Model) updateDeleteConfirm(msg tea.Msg) (tea.Model, tea.Cmd)] *)
Definition updateDeleteConfirm (m : Model.t) (msg : Msg) : Model.t * option Cmd.t :=
  match msg with
  | KeyMsg k =>
      if keyIs k "esc" || keyIs k "n" || keyIs k "N" then
        let m := Model.set_state stateNormal m in
        let m := Model.set_inputErr "" m in
        (m, None)
      else if keyIs k "enter" || keyIs k "y" || keyIs k "Y" then
        match selectedSession m with
        | None => (Model.set_state stateNormal m, None)
        | Some s =>
            (m, Some (Cmd.deleteWorktreeCmd (Model.repoRoot m)
                        (model.Session.Path s) (model.Session.Branch s)))
        end
      else (m, None)
  | _ => (m, None)
  end.

(** The second [switch] of [Update]: the handler of the active state. *)
Definition updateByState (m : Model.t) (msg : Msg) : Model.t * option Cmd.t :=
  match Model.state m with
  | stateNewSession => updateNewSession m msg
  | stateCommitType => updateCommitType m msg
  | stateCommit => updateCommit m msg
  | stateDeleteConfirm => updateDeleteConfirm m msg
  | stateCreatePR => updateCreatePR m msg
  | stateManagePR => updateManagePR m msg
  | stateNormal => updateNormal m msg
  end.

(** [func (m Model) Update(msg tea.Msg) (tea.Model, tea.Cmd)] *)
Definition Update (m : Model.t) (msg : Msg) : Model.t * option Cmd.t :=
  let fetch := Cmd.fetchSessionsCmd (Model.forge m) in
  match msg with
  | WindowSizeMsg w h =>
      let m := Model.set_width w m in
      let m := Model.set_height h m in
      let '(lw, lh) := listDimensions m in
      let m := Model.set_list (SetSize lw lh (Model.list m)) m in
      (m, None)
  | tickMsg =>
      let m := Model.set_spinnerFrame
                 (Z.rem (Model.spinnerFrame m + 1) (Z.of_nat (length spinnerFrames))) m in
      let m :=
        if negb (Model.loading m) && isNil (Model.err m)
        then buildItems m else m in
      (m, Some Cmd.tickCmd)
  | clearStatusMsg =>
      let m := Model.set_statusText "" m in
      (m, None)
  | sessionsLoadedMsg sessions err =>
      let m := Model.set_loading false m in
      match err with
      | Some e => (Model.set_err (Some e) m, None)
      | None =>
          let m := Model.set_err None m in
          let m := Model.set_sessions sessions m in
          let m := buildItems m in
          (m, None)
      end
  | worktreeCreatedMsg slug path err =>
      match err with
      | Some e => (Model.set_inputErr e m, None)
      | None =>
          let m := Model.set_state stateNormal m in
          let m := Model.set_inputErr "" m in
          let m := Model.set_nameInput (Reset (Model.nameInput m)) m in
          let m := Model.set_nameInput (Blur (Model.nameInput m)) m in
          (m, Some (Cmd.ensureAndAttachCmd
                      (model.Session.mk path "" slug false false None)))
      end
  | sessionEnsuredMsg slug err =>
      match err with
      | Some e => (Model.set_err (Some e) m, None)
      | None => (m, Some (Cmd.ExecProcess slug))
      end
  | claudeExitedMsg _ =>
      let m := Model.set_loading true m in
      (m, Some fetch)
  | commitResultMsg err =>
      match err with
      | Some e => (Model.set_inputErr e m, None)
      | None =>
          let m := Model.set_state stateNormal m in
          let m := Model.set_inputErr "" m in
          let m := Model.set_nameInput (Reset (Model.nameInput m)) m in
          let m := Model.set_nameInput (Blur (Model.nameInput m)) m in
          let m := Model.set_loading true m in
          let m := setStatus statusInfo "◆ committed" m in
          (m, Some (Cmd.Batch [fetch; Cmd.clearStatusCmd]))
      end
  | worktreeRemovedMsg err =>
      match err with
      | Some e =>
          let m := Model.set_inputErr e m in
          let m := Model.set_state stateNormal m in
          (m, None)
      | None =>
          let m := Model.set_state stateNormal m in
          let m := Model.set_inputErr "" m in
          let m := Model.set_loading true m in
          (m, Some fetch)
      end
  | pushResultMsg err =>
      let m :=
        match err with
        | Some e => setStatus statusError ("✕ push failed: " +:+ e) m
        | None => setStatus statusInfo "◆ pushed" m
        end in
      let m := Model.set_loading true m in
      (m, Some (Cmd.Batch [fetch; Cmd.clearStatusCmd]))
  | prCreatedMsg err =>
      match err with
      | Some e => (Model.set_inputErr e m, None)
      | None =>
          let m := Model.set_state stateNormal m in
          let m := Model.set_inputErr "" m in
          let m := setStatus statusInfo "◆ PR created" m in
          let m := Model.set_loading true m in
          (m, Some (Cmd.Batch [fetch; Cmd.clearStatusCmd]))
      end
  | prUpdatedMsg err =>
      match err with
      | Some e =>
          let m := setStatus statusError ("✕ " +:+ e) m in
          let m := Model.set_state stateNormal m in
          (m, Some (Cmd.Batch [Cmd.clearStatusCmd]))
      | None =>
          let m := Model.set_state stateNormal m in
          let m := setStatus statusInfo "◆ PR updated" m in
          let m := Model.set_loading true m in
          (m, Some (Cmd.Batch [fetch; Cmd.clearStatusCmd]))
      end
  | KeyMsg _ | otherMsg _ => updateByState m msg
  end.

End Update.

End tui.

(** ** Notions the properties are stated with *)

Module spec.

Import tui.

(** The review a goroutine attaches. *)
Definition reviewOf (w : World) (f : option forge.Forge) (s : model.Session.t)
  : option model.PR.t :=
  match f with
  | None => model.Session.PR s
  | Some f => fst (forge.FetchPR f (run w) (model.Session.Branch s))
  end.

(** The flag a goroutine leaves in [NeedsInput]. *)
Definition flagOf (w : World) (f : option forge.Forge) (s : model.Session.t) : bool :=
  match f, reviewOf w f s with
  | Some _, Some pr =>
      String.eqb (model.PR.PipelineStatus pr) "failed" || model.PR.HasUnresolved pr
  | _, _ =>
      if tmux.SessionExists (tmuxd w) (model.Session.Slug s)
      then tmux.NeedsInput (tmuxd w) (model.Session.Slug s)
      else model.Session.NeedsInput s
  end.

(** The probes a goroutine calls. *)
Definition callsOf (w : World) (f : option forge.Forge) (s : model.Session.t)
  : list Event :=
  CallSessionExists (model.Session.Slug s)
  :: (if tmux.SessionExists (tmuxd w) (model.Session.Slug s)
      then [CallNeedsInput (model.Session.Slug s)] else [])
  ++ match f with
     | None => []
     | Some f => [CallFetchPR (forge.Kind f) (model.Session.Branch s)]
     end.

(** The listing failed: the command ended in error (a time-out included),
    or its output does not decode. *)
Definition fetchFailed {A : Type} (decode : string -> option (list A))
  (r : cli_result) : Prop :=
  match r with
  | CliErr _ _ => True
  | CliOk out => decode out = None
  end.

(** [found] is the first element of [prs] that is open, or element 0 of
    [prs] when none is open. *)
Definition firstOpenElseHead {A : Type} (isOpen : A -> bool) (prs : list A)
  (found : A) : Prop :=
  (exists i : nat,
      prs !! i = Some found /\ isOpen found = true /\
      forall (j : nat) (q : A), (j < i)%nat -> prs !! j = Some q -> isOpen q = false)
  \/ ((forall q : A, q ∈ prs -> isOpen q = false) /\ prs !! 0%nat = Some found).

Definition ghOpen (p : forge.ghPR.t) : bool := String.eqb (forge.ghPR.State p) "OPEN".
Definition glabOpen (p : forge.glabMR.t) : bool := String.eqb (forge.glabMR.State p) "opened".

(** [c] is a command whose closure calls a method of the forge: creating or
    updating a review, or a cycle started with a forge. *)
Definition touchesForge `{Bubbles} (c : Cmd.t) : bool :=
  match c with
  | Cmd.createPRCmd _ _ _ _ => true
  | Cmd.updatePRCmd _ _ _ => true
  | Cmd.fetchSessionsCmd (Some _) => true
  | _ => false
  end.

(** The two states that belong to a review. *)
Definition reviewState (st : appState) : bool :=
  match st with
  | stateCreatePR | stateManagePR => true
  | _ => false
  end.



(** The model after a sequence of messages. *)
Definition steps `{strings.Unicode} `{Bubbles} (run : Exec) (m : Model.t)
  (msgs : list Msg) : Model.t :=
  fold_left (fun m msg => fst (Update run m msg)) msgs m.

(** The models the program can be in: [New], then any messages. *)
Inductive reachable `{strings.Unicode} `{forge.JSON} `{Bubbles} (run : Exec)
  : Model.t -> Prop :=
| reach_New : reachable run (New run)
| reach_Update (m : Model.t) (msg : Msg) :
    reachable run m -> reachable run (fst (Update run m msg)).

End spec.

(** ** Stand-ins for the interfaces

    Small executable instances of the standard library, the JSON decoder,
    the widgets and the host, used to run the program on concrete inputs. *)

Module fixture.

Definition isSpace (c : ascii) : bool :=
  let n := nat_of_ascii c in
  ((9 <=? n) && (n <=? 13) || (n =? 32))%nat.

Fixpoint trimLeft (s : string) : string :=
  match s with
  | EmptyString => EmptyString
  | String c s' => if isSpace c then trimLeft s' else s
  end.

(** [strings.TrimSpace] on ASCII text. *)
Definition trimSpace (s : string) : string :=
  String.rev (trimLeft (String.rev (trimLeft s))).

(** The standard library restricted to ASCII: text with other bytes is left
    as it is by the case mapping. *)
Definition ascii : strings.Unicode :=
  {| strings.TrimSpace := trimSpace; strings.MapToLower := fun s => s |}.

(** A decoder that yields the given values for any text that opens a JSON
    array and refuses every other text. *)
Definition json (prs : list forge.ghPR.t) (mrs : list forge.glabMR.t) : forge.JSON :=
  {| forge.Unmarshal_ghPR := fun out => if String.prefix "[" out then Some prs else None;
     forge.Unmarshal_glabMR := fun out => if String.prefix "[" out then Some mrs else None |}.

(** Widgets reduced to their data: a text input is its value, and a list is
    its items and cursor; neither reacts to messages. *)
Definition bubbles : tui.Bubbles :=
  {| tui.textinput := string;
     tui.listModel := list tui.sessionItem * Z;
     tui.widgetCmd := unit;
     tui.textinput_New := fun _ _ => EmptyString;
     tui.Value := fun t => t;
     tui.SetValue := fun v _ => v;
     tui.Reset := fun _ => EmptyString;
     tui.Focus := fun t => t;
     tui.Blur := fun t => t;
     tui.SetPlaceholder := fun _ t => t;
     tui.textinput_Update := fun t _ => (t, None);
     tui.list_New := ([], 0%Z);
     tui.Index := fun l => snd l;
     tui.SetItems := fun items l => (items, snd l);
     tui.SetSize := fun _ _ l => l;
     tui.list_Update := fun l _ => (l, None) |}.

Definition nl : string := git.newline.

(** [git worktree list --porcelain] for a repository with one linked
    worktree on branch [feat/x]. *)
Definition porcelain : string :=
  "worktree /repo" +:+ nl +:+ "HEAD 1111" +:+ nl +:+ "branch refs/heads/main" +:+ nl
  +:+ nl +:+
  "worktree /repo/.claude/worktrees/feat-x" +:+ nl +:+ "HEAD 2222" +:+ nl
  +:+ "branch refs/heads/feat/x" +:+ nl.

(** A host where [git] lists the worktrees above, the remote is on GitHub
    and [gh] answers for every branch. *)
Definition host (c : command) : cli_result :=
  if String.eqb (cmd_name c) "git" then
    match cmd_args c with
    | ["worktree"; "list"; "--porcelain"] => CliOk porcelain
    | ["rev-parse"; "--show-toplevel"] => CliOk ("/repo" +:+ nl)
    | [_; _; "remote"; "get-url"; "origin"] => CliOk ("git@github.com:acme/repo.git" +:+ nl)
    | _ => CliErr EmptyString "exit status 1"
    end
  else if String.eqb (cmd_name c) "gh" then CliOk "[{}]"
  else CliErr EmptyString "executable file not found in $PATH".

(** A host with no remote and no forge command line. *)
Definition hostNoForge (c : command) : cli_result :=
  if String.eqb (cmd_name c) "git" then
    match cmd_args c with
    | ["worktree"; "list"; "--porcelain"] => CliOk porcelain
    | ["rev-parse"; "--show-toplevel"] => CliOk ("/repo" +:+ nl)
    | _ => CliErr EmptyString "exit status 2"
    end
  else CliErr EmptyString "executable file not found in $PATH".

(** A tmux server with a session for [feat-x] whose pane does not change
    between the two snapshots. *)
Definition idleServer : tmux.Server :=
  tmux.mkServer {[ "feat-x" ]} (fun _ _ => CliOk "> ").

(** The same server with a pane that changes between the snapshots. *)
Definition busyServer : tmux.Server :=
  tmux.mkServer {[ "feat-x" ]}
    (fun _ n => CliOk (if (n =? 0)%nat then "thinking." else "thinking..")).

(** An open pull request with green checks and an approving review. *)
Definition greenPR : forge.ghPR.t :=
  forge.ghPR.mk 7 "feat: x" "OPEN" "https://github.com/acme/repo/pull/7" false
    "SUCCESS" "APPROVED".

(** An open pull request whose checks failed. *)
Definition redPR : forge.ghPR.t :=
  forge.ghPR.mk 7 "feat: x" "OPEN" "https://github.com/acme/repo/pull/7" false
    "FAILURE" "APPROVED".

(** A merged pull request. *)
Definition mergedPR : forge.ghPR.t :=
  forge.ghPR.mk 5 "feat: x, first try" "MERGED" "https://github.com/acme/repo/pull/5"
    false "SUCCESS" "APPROVED".

(** A host where [glab] answers with a page that is no JSON. *)
Definition hostGarbled (c : command) : cli_result :=
  if String.eqb (cmd_name c) "glab" then CliOk "<html>502 Bad Gateway</html>"
  else hostNoForge c.

(** The two backends over the stand-in decoder. *)
Definition github (prs : list forge.ghPR.t) : forge.Forge :=
  @forge.gitHub (json prs []).
Definition gitlab (mrs : list forge.glabMR.t) : forge.Forge :=
  @forge.gitLab (json [] mrs).

Definition idleWorld : tui.World := tui.mkWorld host idleServer.
Definition busyWorld : tui.World := tui.mkWorld host busyServer.

(** What [FetchPR] makes of the three pull requests. *)
Definition green : model.PR.t := forge.ghOfFound greenPR.
Definition red : model.PR.t := forge.ghOfFound redPR.

(** The two worktrees of [porcelain] as a cycle publishes them. *)
Definition mainWith (pr : option model.PR.t) (flag : bool) : model.Session.t :=
  model.Session.mk "/repo" "main" "main" flag false pr.
Definition featWith (pr : option model.PR.t) (flag : bool) : model.Session.t :=
  model.Session.mk "/repo/.claude/worktrees/feat-x" "feat/x" "feat-x" flag true pr.

Definition emptyDisk : tmux.Disk := tmux.mkDisk ∅ ∅.

(** The model at program start on the host with GitHub, and on the host
    without a forge. *)
Definition start : tui.Model.t (H := bubbles) :=
  tui.New (H := ascii) (H0 := json [] []) (H1 := bubbles) host.
Definition startNoForge : tui.Model.t (H := bubbles) :=
  tui.New (H := ascii) (H0 := json [] []) (H1 := bubbles) hostNoForge.

(** An operating system where every call succeeds. *)
Definition os : tmux.Host :=
  {| tmux.UserConfigDir := inl "/home/u/.config";
     tmux.Join := fun parts => fold_right (fun a b => if String.eqb b EmptyString then a else a +:+ "/" +:+ b) EmptyString parts;
     tmux.Dir := fun _ => "/home/u/.config/deckard";
     tmux.ancestors := fun d => {[ d ]};
     tmux.mkdir_err := fun _ => None;
     tmux.write_err := fun _ => None;
     tmux.spawn := fun _ _ _ => CliOk EmptyString |}.

End fixture.

(** ** Tactics for the case analysis of [Update] *)

Ltac split_cases :=
  repeat (cbn -[String.eqb tui.keyIs Z.rem nth] in *;
          match goal with
          | |- context [match ?x with _ => _ end] => destruct x eqn:?
          end);
  cbn -[String.eqb tui.keyIs Z.rem nth] in *.

Ltac absurd_state :=
  match goal with
  | Hs : true = false |- _ => discriminate Hs
  | Hs : spec.reviewState (tui.Model.state ?m) = false,
    E : tui.Model.state ?m = _ |- _ =>
      rewrite E in Hs; discriminate Hs
  end.

Ltac same_state :=
  match goal with
  | E : tui.Model.state ?m = _ |- context [tui.Model.state ?m] =>
      rewrite E; reflexivity
  end.

Ltac unfold_Update :=
  unfold tui.Update, tui.updateByState, tui.updateNormal, tui.updateNewSession,
    tui.updateCommitType, tui.updateCommit, tui.updateDeleteConfirm,
    tui.updateCreatePR, tui.updateManagePR, tui.enterCreatePR, tui.buildItems,
    tui.setStatus, tui.listDimensions, tui.Cmd.ofWidget.


(** ** The list items of package [tui] *)

Module item.

(** [func (i sessionItem) Title() string] *)
Definition Title (i : tui.sessionItem) : string :=
  let indicator :=
    if model.Session.NeedsInput (tui.s i) then "▲"
    else if model.Session.TmuxRunning (tui.s i) then tui.spinnerChar i
    else "·" in
  indicator +:+ " " +:+ model.Session.Slug (tui.s i).

(** [func (i sessionItem) Description() string] *)
Definition Description (i : tui.sessionItem) : string :=
  model.Session.Branch (tui.s i).

(** [func (i sessionItem) FilterValue() string] *)
Definition FilterValue (i : tui.sessionItem) : string :=
  model.Session.Slug (tui.s i).

End item.

(** ** Further notions the properties are stated with *)

Module props.

Import tui.

(** A string with each byte replaced through [f]. *)
Fixpoint mapBytes (f : ascii -> ascii) (s : string) : string :=
  match s with
  | EmptyString => EmptyString
  | String c s' => String (f c) (mapBytes f s')
  end.

(** The byte-wise effect of replacing every slash by a dash. *)
Definition slashToDash (c : ascii) : ascii :=
  if Ascii.eqb c "/" then "-"%char else c.

(** [s] holds the byte [c]. *)
Fixpoint hasByte (c : ascii) (s : string) : bool :=
  match s with
  | EmptyString => false
  | String b s' => Ascii.eqb b c || hasByte c s'
  end.

(** [s] holds no line feed. *)
Definition oneLine (s : string) : bool := negb (hasByte (ascii_of_nat 10) s).

(** What identifies a worktree: path, branch and slug. *)
Definition worktreeOf (s : model.Session.t) : string * string * string :=
  (model.Session.Path s, model.Session.Branch s, model.Session.Slug s).

(** The signal a review gives: a failed pipeline or unresolved threads. *)
Definition reviewSignal (pr : model.PR.t) : bool :=
  String.eqb (model.PR.PipelineStatus pr) "failed" || model.PR.HasUnresolved pr.



Definition isFetch `{Bubbles} (c : Cmd.t) : bool :=
  match c with Cmd.fetchSessionsCmd _ => true | _ => false end.

End props.

(** ** A stand-in for the widgets that takes typed text *)

Module typing.

(** Widgets as in [fixture.bubbles], except that a text input appends the
    byte of a key press that carries a single byte. *)
Definition bubbles : tui.Bubbles :=
  {| tui.textinput := string;
     tui.listModel := list tui.sessionItem * Z;
     tui.widgetCmd := unit;
     tui.textinput_New := fun _ _ => EmptyString;
     tui.Value := fun t => t;
     tui.SetValue := fun v _ => v;
     tui.Reset := fun _ => EmptyString;
     tui.Focus := fun t => t;
     tui.Blur := fun t => t;
     tui.SetPlaceholder := fun _ t => t;
     tui.textinput_Update :=
       fun t msg =>
         match msg with
         | tui.KeyMsg k =>
             if (String.length k =? 1)%nat then (t +:+ k, None) else (t, None)
         | _ => (t, None)
         end;
     tui.list_New := ([], 0%Z);
     tui.Index := fun l => snd l;
     tui.SetItems := fun items l => (items, snd l);
     tui.SetSize := fun _ _ l => l;
     tui.list_Update := fun l _ => (l, None) |}.

(** The model at program start on the host with GitHub. *)
Definition start : tui.Model.t (H := bubbles) :=
  tui.New (H := fixture.ascii) (H0 := fixture.json [] []) (H1 := bubbles) fixture.host.

End typing.

(** * Properties *)

(** ** Slugs *)

Module git_facts.

Section WithUnicode.
Context `{strings.Unicode}.

Lemma append_nonempty (a b : string) : a <> EmptyString -> a +:+ b <> EmptyString.
Proof. destruct a; [congruence | discriminate]. Qed.

(** Replacing by a text that is not empty never empties a string. *)
Lemma ReplaceAll_nonempty (s old new : string) :
  s <> EmptyString -> new <> EmptyString -> strings.ReplaceAll s old new <> EmptyString.
Proof.
  intros Hs Hnew. unfold strings.ReplaceAll.
  destruct s as [|c s]; [congruence|].
  cbn [strings.replace_go].
  destruct (String.prefix old (String c s)).
  - now apply append_nonempty.
  - discriminate.
Qed.

Lemma lowerASCII_nonempty (s : string) :
  s <> EmptyString -> strings.lowerASCII s <> EmptyString.
Proof. destruct s; [congruence | discriminate]. Qed.

Hypothesis MapToLower_nonempty :
  forall s, s <> EmptyString -> strings.MapToLower s <> EmptyString.

Lemma ToLower_nonempty (s : string) :
  s <> EmptyString -> strings.ToLower s <> EmptyString.
Proof.
  intros Hs. unfold strings.ToLower.
  destruct (strings.isASCII s); auto using lowerASCII_nonempty.
Qed.

Lemma BranchToSlug_nonempty (branch : string) : git.BranchToSlug branch <> EmptyString.
Proof.
  unfold git.BranchToSlug.
  destruct (String.eqb_spec branch EmptyString) as [->|Hne]; [discriminate|].
  apply ReplaceAll_nonempty; [now apply ToLower_nonempty | discriminate].
Qed.

Lemma parseBlock_slug (block : string) (sess : model.Session.t) :
  git.parseBlock block = Some sess ->
  model.Session.Slug sess = git.BranchToSlug (model.Session.Branch sess)
  /\ model.Session.PR sess = None
  /\ model.Session.NeedsInput sess = false
  /\ model.Session.TmuxRunning sess = false.
Proof.
  unfold git.parseBlock.
  destruct (fold_left _ _ _) as [[path branch] detached].
  destruct (String.eqb path EmptyString); [discriminate|].
  intros [= <-]. cbn. auto.
Qed.

Lemma parseWorktrees_blocks (raw : string) (sess : model.Session.t) :
  sess ∈ git.parseWorktrees raw -> exists block, git.parseBlock block = Some sess.
Proof.
  unfold git.parseWorktrees. rewrite list_elem_of_omap.
  intros (block & _ & Hb). eauto.
Qed.

Lemma ListWorktrees_blocks (run : Exec) (sess : model.Session.t) :
  sess ∈ fst (git.ListWorktrees run) -> exists block, git.parseBlock block = Some sess.
Proof.
  unfold git.ListWorktrees. destruct (run _); cbn.
  - apply parseWorktrees_blocks.
  - intros Hin. inversion Hin.
Qed.

End WithUnicode.

(** The scenario of the specification: branch [fix/login-bug]. *)
Example slug_of_fix_login_bug :
  git.BranchToSlug (H := fixture.ascii) "fix/Login-Bug" = "fix-login-bug".
Proof. reflexivity. Qed.

(** A block with no branch line and no [detached] line (a bare
    repository) still yields a session, with the slug [unknown]. *)
Example slug_of_bare_block :
  git.parseBlock (H := fixture.ascii) ("worktree /srv/repo.git" +:+ fixture.nl +:+ "bare")
  = Some (model.Session.mk "/srv/repo.git" EmptyString "unknown" false false None).
Proof. reflexivity. Qed.

Example slug_of_detached_block :
  git.parseBlock (H := fixture.ascii)
    ("worktree /repo/wt" +:+ fixture.nl +:+ "HEAD 3333" +:+ fixture.nl +:+ "detached")
  = Some (model.Session.mk "/repo/wt" "detached" "detached" false false None).
Proof. reflexivity. Qed.

Example porcelain_has_two_worktrees :
  git.parseWorktrees (H := fixture.ascii) fixture.porcelain
  = [ model.Session.mk "/repo" "main" "main" false false None;
      model.Session.mk "/repo/.claude/worktrees/feat-x" "feat/x" "feat-x"
        false false None ].
Proof. reflexivity. Qed.

Example Split_keeps_empty_pieces :
  strings.Split "a--b----c--" "--" = ["a"; "b"; ""; "c"; ""].
Proof. reflexivity. Qed.

End git_facts.

(** ** The enrichment cycle *)

Module enrich_facts.

Import tui spec.

Lemma forEach_fst {A B : Type} (body : A -> Probe B) (l : list A) :
  fst (forEach body l) = map (fun a => fst (body a)) l.
Proof.
  induction l as [|a l IH]; [reflexivity|].
  cbn [forEach map]. unfold bind, ret in *.
  destruct (body a) as [b t1]. destruct (forEach body l) as [bs t2].
  cbn in *. now rewrite IH.
Qed.

Lemma forEach_snd {A B : Type} (body : A -> Probe B) (l : list A) :
  snd (forEach body l) = concat (map (fun a => snd (body a)) l).
Proof.
  induction l as [|a l IH]; [reflexivity|].
  cbn [forEach map concat]. unfold bind, ret in *.
  destruct (body a) as [b t1]. destruct (forEach body l) as [bs t2].
  cbn in *. now rewrite IH, app_nil_r.
Qed.

Lemma elem_of_concat_map {A B : Type} (g : A -> list B) (l : list A) (x : B) :
  x ∈ concat (map g l) -> exists a : A, a ∈ l /\ x ∈ g a.
Proof.
  rewrite list_elem_of_In, in_concat. intros (ys & Hys & Hx).
  apply in_map_iff in Hys as (a & <- & Ha).
  exists a. now rewrite !list_elem_of_In.
Qed.

Lemma enrich_result (w : World) (f : option forge.Forge) (s : model.Session.t) :
  fst (enrich w f s) =
  model.Session.mk (model.Session.Path s) (model.Session.Branch s)
    (model.Session.Slug s) (flagOf w f s)
    (tmux.SessionExists (tmuxd w) (model.Session.Slug s)) (reviewOf w f s).
Proof.
  unfold enrich, flagOf, reviewOf, bind, call, ret.
  destruct s as [path branch slug needs running pr]; cbn.
  destruct (tmux.SessionExists (tmuxd w) slug); cbn;
    destruct f as [f|]; cbn; try reflexivity;
    destruct (fst (forge.FetchPR f (run w) branch)); reflexivity.
Qed.

Lemma enrich_calls (w : World) (f : option forge.Forge) (s : model.Session.t) :
  snd (enrich w f s) = callsOf w f s.
Proof.
  unfold enrich, callsOf, bind, call, ret.
  destruct s as [path branch slug needs running pr]; cbn.
  destruct (tmux.SessionExists (tmuxd w) slug); cbn;
    destruct f as [f|]; cbn; try reflexivity;
    destruct (fst (forge.FetchPR f (run w) branch)); reflexivity.
Qed.

Section WithUnicode.
Context `{strings.Unicode}.

(** A cycle that publishes a list publishes the element-wise enrichment of
    the worktrees [git] listed, and its log is the goroutines' logs. *)
Lemma cycle_published (w : World) (f : option forge.Forge)
  (sessions : list model.Session.t) (err : option string) (trace : list Event) :
  fetchSessionsCmd w f = (sessionsLoadedMsg sessions err, trace) ->
  (err = None /\
   sessions = map (fun s => fst (enrich w f s)) (fst (git.ListWorktrees (run w))) /\
   trace = concat (map (callsOf w f) (fst (git.ListWorktrees (run w)))))
  \/ (is_Some err /\ sessions = [] /\ trace = []).
Proof.
  unfold fetchSessionsCmd.
  destruct (git.ListWorktrees (run w)) as [srcs [e|]] eqn:Hl; cbn.
  - intros [= <- <- <-]. right. eauto.
  - unfold bind, ret.
    pose proof (forEach_fst (enrich w f) srcs) as Hf.
    pose proof (forEach_snd (enrich w f) srcs) as Hs.
    destruct (forEach (enrich w f) srcs) as [bs t]. cbn in *.
    intros [= <- <- <-]. left. rewrite app_nil_r. repeat split; [done|].
    rewrite Hs. f_equal. apply map_ext. intros a. apply enrich_calls.
Qed.

End WithUnicode.

End enrich_facts.

(** ** The forge clients *)

Module forge_facts.

Import spec.

Lemma find_first {A : Type} (isOpen : A -> bool) (prs : list A) (found : A) :
  List.find isOpen prs = Some found ->
  exists i : nat,
    prs !! i = Some found /\ isOpen found = true /\
    forall (j : nat) (q : A), (j < i)%nat -> prs !! j = Some q -> isOpen q = false.
Proof.
  induction prs as [|p prs IH]; [discriminate|].
  cbn [List.find]. destruct (isOpen p) eqn:Hp.
  - intros [= ->]. exists 0%nat. repeat split; [assumption|]. intros j q Hj. lia.
  - intros Hf. destruct (IH Hf) as (i & Hi & Ho & Hlt).
    exists (S i). repeat split; [assumption..|].
    intros [|j] q Hj Hq; cbn in Hq.
    + now injection Hq as <-.
    + apply (Hlt j); [lia | assumption].
Qed.

Lemma find_none {A : Type} (isOpen : A -> bool) (prs : list A) :
  List.find isOpen prs = None -> forall q : A, q ∈ prs -> isOpen q = false.
Proof.
  intros Hf q Hq. apply list_elem_of_In in Hq.
  exact (List.find_none isOpen prs Hf q Hq).
Qed.

Lemma pick_spec {A : Type} (isOpen : A -> bool) (prs : list A) :
  prs <> [] ->
  exists found : A, forge.pick isOpen prs = Some found /\ firstOpenElseHead isOpen prs found.
Proof.
  intros Hne. unfold forge.pick, firstOpenElseHead.
  destruct (List.find isOpen prs) as [p|] eqn:Hf.
  - exists p. split; [reflexivity|]. left. now apply find_first.
  - destruct prs as [|p prs]; [congruence|].
    exists p. split; [reflexivity|]. right. split; [|reflexivity].
    now apply find_none.
Qed.

Lemma pick_nil {A : Type} (isOpen : A -> bool) : forge.pick isOpen [] = None.
Proof. reflexivity. Qed.

Section WithJSON.
Context `{forge.JSON}.

Lemma gitHub_FetchPR_no_error (run : Exec) (branch : string) :
  snd (forge.gitHub_FetchPR run branch) = None.
Proof.
  unfold forge.gitHub_FetchPR.
  destruct (run _); [|reflexivity].
  destruct (forge.Unmarshal_ghPR out); [|reflexivity].
  destruct (forge.pick _ _); reflexivity.
Qed.

Lemma gitLab_FetchPR_no_error (run : Exec) (branch : string) :
  snd (forge.gitLab_FetchPR run branch) = None.
Proof.
  unfold forge.gitLab_FetchPR.
  destruct (run _); [|reflexivity].
  destruct (forge.Unmarshal_glabMR out); [|reflexivity].
  destruct (forge.pick _ _); reflexivity.
Qed.

Lemma gitHub_FetchPR_failed (run : Exec) (branch : string) :
  fetchFailed forge.Unmarshal_ghPR (run (forge.ghListCmd branch)) ->
  forge.gitHub_FetchPR run branch = (None, None).
Proof.
  unfold forge.gitHub_FetchPR, fetchFailed.
  destruct (run _); [|reflexivity]. now intros ->.
Qed.

Lemma gitLab_FetchPR_failed (run : Exec) (branch : string) :
  fetchFailed forge.Unmarshal_glabMR (run (forge.glabListCmd branch)) ->
  forge.gitLab_FetchPR run branch = (None, None).
Proof.
  unfold forge.gitLab_FetchPR, fetchFailed.
  destruct (run _); [|reflexivity]. now intros ->.
Qed.

Lemma gitHub_FetchPR_picks (run : Exec) (branch out : string) (prs : list forge.ghPR.t) :
  run (forge.ghListCmd branch) = CliOk out ->
  forge.Unmarshal_ghPR out = Some prs ->
  prs <> [] ->
  exists found : forge.ghPR.t,
    forge.gitHub_FetchPR run branch = (Some (forge.ghOfFound found), None)
    /\ firstOpenElseHead ghOpen prs found.
Proof.
  intros Hrun Hdec Hne. unfold forge.gitHub_FetchPR. rewrite Hrun, Hdec.
  destruct (pick_spec ghOpen prs Hne) as (found & Hp & Hspec).
  exists found. unfold ghOpen in Hp. now rewrite Hp.
Qed.

Lemma gitLab_FetchPR_picks (run : Exec) (branch out : string) (mrs : list forge.glabMR.t) :
  run (forge.glabListCmd branch) = CliOk out ->
  forge.Unmarshal_glabMR out = Some mrs ->
  mrs <> [] ->
  exists found : forge.glabMR.t,
    forge.gitLab_FetchPR run branch = (Some (forge.glabOfFound found), None)
    /\ firstOpenElseHead glabOpen mrs found.
Proof.
  intros Hrun Hdec Hne. unfold forge.gitLab_FetchPR. rewrite Hrun, Hdec.
  destruct (pick_spec glabOpen mrs Hne) as (found & Hp & Hspec).
  exists found. unfold glabOpen in Hp. now rewrite Hp.
Qed.

(** A review picked as open is published with the state [open]. *)
Lemma open_is_normalised (p : forge.ghPR.t) (q : forge.glabMR.t) :
  (ghOpen p = true -> model.PR.State (forge.ghOfFound p) = "open")
  /\ (glabOpen q = true -> model.PR.State (forge.glabOfFound q) = "open").
Proof.
  unfold ghOpen, glabOpen, forge.ghOfFound, forge.glabOfFound,
    forge.ghState, forge.normaliseState; cbn.
  split; intros ->; reflexivity.
Qed.

End WithJSON.

End forge_facts.

(** ** What a cycle publishes *)

Module cycle_facts.

Import tui.

Section WithUnicode.
Context `{strings.Unicode}.

(** Every published session is the enrichment of a session parsed from a
    block of [git worktree list]. *)
Lemma published_from_block (w : World) (f : option forge.Forge)
  (sessions : list model.Session.t) (trace : list Event) (s : model.Session.t) :
  fetchSessionsCmd w f = (sessionsLoadedMsg sessions None, trace) ->
  s ∈ sessions ->
  exists (block : string) (src : model.Session.t),
    git.parseBlock block = Some src
    /\ src ∈ fst (git.ListWorktrees (run w))
    /\ s = fst (enrich w f src).
Proof.
  intros Hc Hs.
  destruct (enrich_facts.cycle_published _ _ _ _ _ Hc) as [(_ & -> & _) | (He & _)].
  - apply list_elem_of_fmap in Hs as (src & -> & Hsrc).
    destruct (git_facts.ListWorktrees_blocks _ _ Hsrc) as (block & Hb).
    eauto.
  - destruct He as [e He]. discriminate.
Qed.

(** A call to the idle probe in the log of a cycle comes from a goroutine
    whose session exists on the tmux server. *)
Lemma NeedsInput_call_means_alive (w : World) (f : option forge.Forge)
  (sessions : list model.Session.t) (err : option string) (trace : list Event)
  (slug : string) :
  fetchSessionsCmd w f = (sessionsLoadedMsg sessions err, trace) ->
  CallNeedsInput slug ∈ trace ->
  tmux.SessionExists (tmuxd w) slug = true.
Proof.
  intros Hc Hin.
  destruct (enrich_facts.cycle_published _ _ _ _ _ Hc) as [(_ & _ & ->) | (_ & _ & ->)].
  - apply enrich_facts.elem_of_concat_map in Hin as (src & _ & Hin).
    unfold spec.callsOf in Hin.
    apply elem_of_cons in Hin as [Hin | Hin]; [discriminate|].
    apply elem_of_app in Hin as [Hin | Hin].
    + destruct (tmux.SessionExists (tmuxd w) (model.Session.Slug src)) eqn:Hex.
      * apply list_elem_of_singleton in Hin. now injection Hin as ->.
      * inversion Hin.
    + destruct f as [f|]; [|inversion Hin].
      apply list_elem_of_singleton in Hin. discriminate.
  - inversion Hin.
Qed.

(** A call to a forge in the log of a cycle means the cycle ran with a
    forge. *)
Lemma FetchPR_call_means_forge (w : World) (f : option forge.Forge)
  (sessions : list model.Session.t) (err : option string) (trace : list Event)
  (kind branch : string) :
  fetchSessionsCmd w f = (sessionsLoadedMsg sessions err, trace) ->
  CallFetchPR kind branch ∈ trace ->
  is_Some f.
Proof.
  intros Hc Hin.
  destruct (enrich_facts.cycle_published _ _ _ _ _ Hc) as [(_ & _ & ->) | (_ & _ & ->)].
  - apply enrich_facts.elem_of_concat_map in Hin as (src & _ & Hin).
    unfold spec.callsOf in Hin.
    destruct f as [f|]; [eauto|].
    apply elem_of_cons in Hin as [Hin | Hin]; [discriminate|].
    apply elem_of_app in Hin as [Hin | Hin]; [|inversion Hin].
    destruct (tmux.SessionExists _ _); [|inversion Hin].
    apply list_elem_of_singleton in Hin. discriminate.
  - inversion Hin.
Qed.

(** The message of a cycle is always [sessionsLoadedMsg]. *)
Lemma cycle_message (w : World) (f : option forge.Forge) :
  exists sessions err trace,
    fetchSessionsCmd w f = (sessionsLoadedMsg sessions err, trace).
Proof.
  unfold fetchSessionsCmd.
  destruct (git.ListWorktrees (run w)) as [srcs [e|]]; cbn; [eauto|].
  unfold bind, ret. destruct (forEach _ _); eauto.
Qed.

(** The flag of a published session that carries a review is the review's
    signal alone. *)
Lemma published_flag_with_review (w : World) (f : option forge.Forge)
  (sessions : list model.Session.t) (trace : list Event)
  (s : model.Session.t) (pr : model.PR.t) :
  fetchSessionsCmd w f = (sessionsLoadedMsg sessions None, trace) ->
  s ∈ sessions ->
  model.Session.PR s = Some pr ->
  model.Session.NeedsInput s =
  String.eqb (model.PR.PipelineStatus pr) "failed" || model.PR.HasUnresolved pr.
Proof.
  intros Hc Hs Hpr.
  destruct (published_from_block _ _ _ _ _ Hc Hs) as (block & src & Hb & _ & ->).
  rewrite enrich_facts.enrich_result in *.
  cbn [model.Session.PR model.Session.NeedsInput] in *.
  apply git_facts.parseBlock_slug in Hb as (_ & Hnone & _).
  unfold spec.flagOf.
  destruct f as [f|].
  - now rewrite Hpr.
  - cbn in Hpr. congruence.
Qed.

(** The flag of a published session without a review is the idle probe of
    its live tmux session. *)
Lemma published_flag_without_review (w : World) (f : option forge.Forge)
  (sessions : list model.Session.t) (trace : list Event) (s : model.Session.t) :
  fetchSessionsCmd w f = (sessionsLoadedMsg sessions None, trace) ->
  s ∈ sessions ->
  model.Session.PR s = None ->
  model.Session.NeedsInput s =
  tmux.SessionExists (tmuxd w) (model.Session.Slug s)
  && tmux.NeedsInput (tmuxd w) (model.Session.Slug s).
Proof.
  intros Hc Hs Hpr.
  destruct (published_from_block _ _ _ _ _ Hc Hs) as (block & src & Hb & _ & ->).
  rewrite enrich_facts.enrich_result in *.
  cbn [model.Session.PR model.Session.NeedsInput model.Session.Slug] in *.
  apply git_facts.parseBlock_slug in Hb as (_ & _ & Hflag & _).
  unfold spec.flagOf. rewrite Hflag.
  destruct f; rewrite ?Hpr; destruct (tmux.SessionExists _ _); reflexivity.
Qed.

End WithUnicode.

End cycle_facts.

(** ** The update function *)

Module update_facts.

Import tui spec.

Section WithLibraries.
Context `{strings.Unicode} `{Bubbles}.
Variable run : Exec.

(** No message changes the forge of the model. *)
Lemma Update_forge (m : Model.t) (msg : Msg) :
  Model.forge (fst (Update run m msg)) = Model.forge m.
Proof.
  unfold_Update.
  destruct msg; split_cases; first [reflexivity | congruence].
Qed.

(** Without a forge, no message leads into a review state. *)
Lemma Update_no_review_state (m : Model.t) (msg : Msg) :
  Model.forge m = None ->
  reviewState (Model.state m) = false ->
  reviewState (Model.state (fst (Update run m msg))) = false.
Proof.
  intros Hf Hst.
  unfold_Update.
  rewrite Hf.
  destruct msg; split_cases;
    first [reflexivity | assumption | absurd_state | same_state].
Qed.

(** Without a forge and outside the review states, no message dispatches
    a command that calls the forge. *)
Lemma Update_no_forge_call (m : Model.t) (msg : Msg) (c : Cmd.t) :
  Model.forge m = None ->
  reviewState (Model.state m) = false ->
  snd (Update run m msg) = Some c ->
  dispatches touchesForge c = false.
Proof.
  intros Hf Hst. unfold_Update. rewrite Hf.
  destruct msg; split_cases; intros Hc;
    first [discriminate Hc | absurd_state
          | injection Hc as <-; cbn; rewrite ?Hf; reflexivity].
Qed.

End WithLibraries.

End update_facts.

(** ** The enrichment pipeline *)

Module enrichment.

Import tui spec.


Section WithUnicode.
Context `{strings.Unicode}.

(** C6: when [sessionExists] is false for the slug of a session of a cycle,
    the log of the cycle holds no call of the idle probe for that slug, and
    the session is published with [TmuxRunning = false]. *)
Theorem dead_session_is_never_probed (w : World) (f : option forge.Forge)
  (sessions : list model.Session.t) (trace : list Event) (s : model.Session.t) :
  fetchSessionsCmd w f = (sessionsLoadedMsg sessions None, trace) ->
  s ∈ sessions ->
  tmux.SessionExists (tmuxd w) (model.Session.Slug s) = false ->
  (CallNeedsInput (model.Session.Slug s) ∉ trace)
  /\ model.Session.TmuxRunning s = false.
Proof.
  intros Hc Hs Hdead. split.
  - intros Hin.
    pose proof (cycle_facts.NeedsInput_call_means_alive _ _ _ _ _ _ Hc Hin).
    congruence.
  - destruct (cycle_facts.published_from_block _ _ _ _ _ Hc Hs)
      as (block & src & _ & _ & ->).
    rewrite enrich_facts.enrich_result in *. exact Hdead.
Qed.

(** C7: a published session whose attached review has the pipeline status
    [failed] has [NeedsInput = true], whatever the tmux server answered to
    the liveness and idle probes. *)
Theorem failed_pipeline_needs_input (w : World) (f : option forge.Forge)
  (sessions : list model.Session.t) (trace : list Event)
  (s : model.Session.t) (pr : model.PR.t) :
  fetchSessionsCmd w f = (sessionsLoadedMsg sessions None, trace) ->
  s ∈ sessions ->
  model.Session.PR s = Some pr ->
  model.PR.PipelineStatus pr = "failed" ->
  model.Session.NeedsInput s = true.
Proof.
  intros Hc Hs Hpr Hfailed.
  rewrite (cycle_facts.published_flag_with_review _ _ _ _ _ _ Hc Hs Hpr).
  now rewrite Hfailed.
Qed.

End WithUnicode.

(** C6 at the worktree [main], which has no tmux session. *)
Lemma dead_session_is_never_probed_witness :
  (CallNeedsInput "main"
     ∉ snd (fetchSessionsCmd (H := fixture.ascii) fixture.idleWorld
              (Some (fixture.github [fixture.greenPR]))))
  /\ model.Session.TmuxRunning (fixture.mainWith (Some fixture.green) false) = false.
Proof.
  apply (dead_session_is_never_probed (H := fixture.ascii) fixture.idleWorld
           (Some (fixture.github [fixture.greenPR]))
           [fixture.mainWith (Some fixture.green) false;
            fixture.featWith (Some fixture.green) false]
           _ (fixture.mainWith (Some fixture.green) false)).
  - vm_compute. reflexivity.
  - apply list_elem_of_here.
  - vm_compute. reflexivity.
Defined.

(** C7 at the worktree [feat-x], busy in tmux, with a red pull request. *)
Lemma failed_pipeline_needs_input_witness :
  tmux.NeedsInput fixture.busyServer "feat-x" = false
  /\ model.Session.NeedsInput (fixture.featWith (Some fixture.red) true) = true.
Proof.
  split; [vm_compute; reflexivity|].
  apply (failed_pipeline_needs_input (H := fixture.ascii) fixture.busyWorld
           (Some (fixture.github [fixture.redPR]))
           [fixture.mainWith (Some fixture.red) true;
            fixture.featWith (Some fixture.red) true]
           (snd (fetchSessionsCmd (H := fixture.ascii) fixture.busyWorld
                   (Some (fixture.github [fixture.redPR]))))
           (fixture.featWith (Some fixture.red) true) fixture.red).
  - vm_compute. reflexivity.
  - apply list_elem_of_further, list_elem_of_here.
  - reflexivity.
  - vm_compute. reflexivity.
Defined.

End enrichment.

(** ** Slugs of published sessions *)

Module slugs.

Import tui spec.

(** C10: [BranchToSlug] of the empty branch name is the text [unknown];
    every session [parseBlock] yields has a slug that is not empty, and the
    slug [unknown] when the block had no branch line; a cycle publishes
    every session with a slug that is not empty. The standard library's
    Unicode case mapping is assumed not to empty a string. *)
Theorem empty_branch_slug_is_unknown `{strings.Unicode} :
  (forall s : string, s <> EmptyString -> strings.MapToLower s <> EmptyString) ->
  git.BranchToSlug EmptyString = "unknown"
  /\ (forall (block : string) (sess : model.Session.t),
         git.parseBlock block = Some sess ->
         model.Session.Slug sess <> EmptyString
         /\ (model.Session.Branch sess = EmptyString ->
             model.Session.Slug sess = "unknown"))
  /\ (forall (w : World) (f : option forge.Forge)
             (sessions : list model.Session.t) (trace : list Event)
             (s : model.Session.t),
         fetchSessionsCmd w f = (sessionsLoadedMsg sessions None, trace) ->
         s ∈ sessions ->
         model.Session.Slug s <> EmptyString).
Proof.
  intros Hlower. split; [reflexivity|]. split.
  - intros block sess Hb.
    apply git_facts.parseBlock_slug in Hb as (-> & _). split.
    + now apply git_facts.BranchToSlug_nonempty.
    + now intros ->.
  - intros w f sessions trace s Hc Hs.
    destruct (cycle_facts.published_from_block _ _ _ _ _ Hc Hs)
      as (block & src & Hb & _ & ->).
    rewrite enrich_facts.enrich_result. cbn [model.Session.Slug].
    apply git_facts.parseBlock_slug in Hb as (-> & _).
    now apply git_facts.BranchToSlug_nonempty.
Qed.

(** C10 on ASCII text, where the case mapping is the byte-wise one. *)
Lemma empty_branch_slug_is_unknown_witness :
  git.BranchToSlug (H := fixture.ascii) EmptyString = "unknown"
  /\ (forall (block : string) (sess : model.Session.t),
         git.parseBlock (H := fixture.ascii) block = Some sess ->
         model.Session.Slug sess <> EmptyString
         /\ (model.Session.Branch sess = EmptyString ->
             model.Session.Slug sess = "unknown"))
  /\ (forall (w : World) (f : option forge.Forge)
             (sessions : list model.Session.t) (trace : list Event)
             (s : model.Session.t),
         fetchSessionsCmd (H := fixture.ascii) w f
           = (sessionsLoadedMsg sessions None, trace) ->
         s ∈ sessions ->
         model.Session.Slug s <> EmptyString).
Proof.
  apply (empty_branch_slug_is_unknown (H := fixture.ascii)).
  intros s Hs. exact Hs.
Defined.

End slugs.

(** ** The forge clients *)

Module reviews.

Import tui spec.

Section WithJSON.
Context `{forge.JSON}.

(** C4: on both backends [FetchPR] returns no review and a [nil] error when
    the listing command fails or its output does not decode, and it returns
    a [nil] error on every input. *)
Theorem FetchPR_failure_is_absent (run : Exec) (branch : string) :
  (fetchFailed forge.Unmarshal_ghPR (run (forge.ghListCmd branch)) ->
   forge.FetchPR forge.gitHub run branch = (None, None))
  /\ (fetchFailed forge.Unmarshal_glabMR (run (forge.glabListCmd branch)) ->
      forge.FetchPR forge.gitLab run branch = (None, None))
  /\ snd (forge.FetchPR forge.gitHub run branch) = None
  /\ snd (forge.FetchPR forge.gitLab run branch) = None.
Proof.
  repeat split.
  - apply forge_facts.gitHub_FetchPR_failed.
  - apply forge_facts.gitLab_FetchPR_failed.
  - apply forge_facts.gitHub_FetchPR_no_error.
  - apply forge_facts.gitLab_FetchPR_no_error.
Qed.

(** C5: when the forge lists at least one candidate for the branch of a
    session, [FetchPR] returns exactly one review, which the cycle attaches
    to the session: the first candidate whose raw state is the backend's
    open state ([OPEN] on GitHub, [opened] on GitLab), or the first
    candidate of the listing when none is open. *)
Theorem review_is_open_else_first (w : World) (s : model.Session.t) (out : string) :
  (forall prs : list forge.ghPR.t,
      run w (forge.ghListCmd (model.Session.Branch s)) = CliOk out ->
      forge.Unmarshal_ghPR out = Some prs ->
      prs <> [] ->
      exists found : forge.ghPR.t,
        firstOpenElseHead ghOpen prs found
        /\ forge.FetchPR forge.gitHub (run w) (model.Session.Branch s)
           = (Some (forge.ghOfFound found), None)
        /\ model.Session.PR (fst (enrich w (Some forge.gitHub) s))
           = Some (forge.ghOfFound found))
  /\ (forall mrs : list forge.glabMR.t,
      run w (forge.glabListCmd (model.Session.Branch s)) = CliOk out ->
      forge.Unmarshal_glabMR out = Some mrs ->
      mrs <> [] ->
      exists found : forge.glabMR.t,
        firstOpenElseHead glabOpen mrs found
        /\ forge.FetchPR forge.gitLab (run w) (model.Session.Branch s)
           = (Some (forge.glabOfFound found), None)
        /\ model.Session.PR (fst (enrich w (Some forge.gitLab) s))
           = Some (forge.glabOfFound found)).
Proof.
  split.
  - intros prs Hrun Hdec Hne.
    destruct (forge_facts.gitHub_FetchPR_picks _ _ _ _ Hrun Hdec Hne)
      as (found & Hfetch & Hfirst).
    exists found. repeat split; [assumption..|].
    rewrite enrich_facts.enrich_result. cbn. now rewrite Hfetch.
  - intros mrs Hrun Hdec Hne.
    destruct (forge_facts.gitLab_FetchPR_picks _ _ _ _ Hrun Hdec Hne)
      as (found & Hfetch & Hfirst).
    exists found. repeat split; [assumption..|].
    rewrite enrich_facts.enrich_result. cbn. now rewrite Hfetch.
Qed.

End WithJSON.

(** C4 where [gh] is not installed, and where [glab] answers with a page
    that is no JSON. *)
Lemma FetchPR_failure_is_absent_witness :
  forge.FetchPR (fixture.github [fixture.greenPR]) fixture.hostNoForge "feat/x"
  = (None, None)
  /\ forge.FetchPR (fixture.gitlab []) fixture.hostGarbled "feat/x" = (None, None).
Proof.
  split.
  - apply (proj1 (FetchPR_failure_is_absent (H := fixture.json [fixture.greenPR] [])
                    fixture.hostNoForge "feat/x")).
    exact I.
  - apply (proj1 (proj2 (FetchPR_failure_is_absent (H := fixture.json [] [])
                           fixture.hostGarbled "feat/x"))).
    reflexivity.
Defined.

(** C5 on a listing of a merged pull request followed by an open one: the
    open one is attached. *)
Lemma review_is_open_else_first_witness :
  exists found : forge.ghPR.t,
    firstOpenElseHead ghOpen [fixture.mergedPR; fixture.greenPR] found
    /\ forge.FetchPR (fixture.github [fixture.mergedPR; fixture.greenPR])
         fixture.host "feat/x"
       = (Some (forge.ghOfFound found), None)
    /\ model.Session.PR
         (fst (enrich fixture.idleWorld
                 (Some (fixture.github [fixture.mergedPR; fixture.greenPR]))
                 (fixture.featWith None false)))
       = Some (forge.ghOfFound found).
Proof.
  apply (proj1 (review_is_open_else_first
                  (H := fixture.json [fixture.mergedPR; fixture.greenPR] [])
                  fixture.idleWorld (fixture.featWith None false) "[{}]")
           [fixture.mergedPR; fixture.greenPR]).
  - reflexivity.
  - reflexivity.
  - discriminate.
Defined.

End reviews.

(** ** The liveness probe *)

Module liveness.

Lemma SessionExists_registered (srv : tmux.Server) (slug : string) :
  tmux.SessionExists srv slug = true <-> slug ∈ tmux.sessions srv.
Proof. unfold tmux.SessionExists. apply bool_decide_eq_true. Qed.

Lemma union_twice (X Y : gset string) : X ∪ Y ∪ Y = X ∪ Y.
Proof. now rewrite <- (assoc_L (∪)), (idemp_L (∪) Y). Qed.

(** Writing the configuration a second time changes nothing on disk. *)
Lemma configPath_again (h : tmux.Host) (d : tmux.Disk) :
  tmux.configPath h (fst (tmux.configPath h d)) = tmux.configPath h d.
Proof.
  unfold tmux.configPath.
  destruct (tmux.UserConfigDir h) as [dir|e]; cbn; [|reflexivity].
  destruct (tmux.mkdir_err h _) as [e|]; cbn; [reflexivity|].
  destruct (tmux.write_err h _) as [e|]; cbn;
    rewrite union_twice, ?insert_insert_eq; reflexivity.
Qed.

(** C8: a second [EnsureSession] with the same slug and path, right after
    the first, leaves the tmux server and the disk as the first left them
    and returns what the first returned; a first call that returned [nil]
    left a session registered under the slug; and a call for a slug that is
    already registered changes nothing and returns [nil]. *)
Theorem EnsureSession_idempotent (h : tmux.Host) (st : tmux.Server * tmux.Disk)
  (slug path : string) :
  let once := tmux.EnsureSession h st slug path in
  tmux.EnsureSession h (fst once) slug path = once
  /\ (snd once = None -> tmux.SessionExists (fst (fst once)) slug = true)
  /\ (tmux.SessionExists (fst st) slug = true -> once = (st, None)).
Proof.
  destruct st as [srv d]. cbn zeta. unfold tmux.EnsureSession.
  destruct (tmux.SessionExists srv slug) eqn:Hex.
  - cbn. rewrite Hex. auto.
  - pose proof (configPath_again h d) as Hcfg.
    destruct (tmux.configPath h d) as [d1 [cfg [e|]]] eqn:Hc1; cbn in Hcfg |- *.
    + rewrite Hex, Hcfg. split; [reflexivity|]. split; discriminate.
    + unfold tmux.new_session.
      change (bool_decide (slug ∈ tmux.sessions srv)) with (tmux.SessionExists srv slug).
      rewrite Hex.
      destruct (tmux.spawn h cfg slug path) as [out|out e] eqn:Hsp; cbn.
      * assert (Hnow : tmux.SessionExists
                         (tmux.mkServer ({[slug]} ∪ tmux.sessions srv)
                            (tmux.capture_pane srv)) slug = true).
        { apply SessionExists_registered. cbn. apply elem_of_union_l.
          now apply elem_of_singleton. }
        rewrite Hnow. split; [reflexivity|]. split; [auto | discriminate].
      * rewrite Hex, Hcfg.
        change (bool_decide (slug ∈ tmux.sessions srv))
          with (tmux.SessionExists srv slug).
        rewrite Hex, Hsp. split; [reflexivity|]. split; discriminate.
Qed.

(** C8 for a slug that is new to the server: the first call registers it. *)
Lemma EnsureSession_idempotent_witness :
  tmux.SessionExists
    (fst (fst (tmux.EnsureSession fixture.os
                 (fixture.idleServer, fixture.emptyDisk) "fix-login-bug" "/repo/wt")))
    "fix-login-bug" = true.
Proof.
  apply (proj1 (proj2 (EnsureSession_idempotent fixture.os
                         (fixture.idleServer, fixture.emptyDisk)
                         "fix-login-bug" "/repo/wt"))).
  vm_compute. reflexivity.
Defined.

End liveness.

(** ** The state machine *)

Module machine.

Import tui spec.

Section WithLibraries.
Context `{strings.Unicode} `{forge.JSON} `{Bubbles}.
Variable run : Exec.

(** When [Detect] found no forge, every model the program reaches has no
    forge and is outside the review states. *)
Lemma reachable_without_forge (m : Model.t) :
  forge.Detect run (fst (git.RepoRoot run)) = None ->
  reachable run m ->
  Model.forge m = None /\ reviewState (Model.state m) = false.
Proof.
  intros Hdetect Hreach. induction Hreach as [|m msg _ [IHf IHs]].
  - split; [exact Hdetect | reflexivity].
  - split.
    + now rewrite update_facts.Update_forge.
    + now apply update_facts.Update_no_review_state.
Qed.

(** In [Normal] without a forge the key [m] does nothing. *)
Lemma manage_key_without_forge (m : Model.t) :
  Model.forge m = None ->
  Model.state m = stateNormal ->
  Update run m (KeyMsg "m") = (m, None).
Proof.
  intros Hf Hs. unfold Update, updateByState. rewrite Hs.
  unfold updateNormal. cbn -[selectedSession]. rewrite Hf.
  destruct (selectedSession m); reflexivity.
Qed.

(** C9: when forge detection returns no backend, every model [m] the
    program reaches has the [nil] forge; a cycle started from [m] publishes
    every session without a review and its log holds no call of [FetchPR];
    in [Normal] the key [m] returns the model unchanged and no command; and
    no message makes [Update] dispatch a command that calls the forge. *)
Theorem nil_forge_is_never_invoked (m : Model.t) :
  forge.Detect run (fst (git.RepoRoot run)) = None ->
  reachable run m ->
  Model.forge m = None
  /\ (forall (w : World) (sessions : list model.Session.t) (err : option string)
             (trace : list Event),
         fetchSessionsCmd w (Model.forge m) = (sessionsLoadedMsg sessions err, trace) ->
         (forall s : model.Session.t, s ∈ sessions -> model.Session.PR s = None)
         /\ (forall kind branch : string, CallFetchPR kind branch ∉ trace))
  /\ (Model.state m = stateNormal -> Update run m (KeyMsg "m") = (m, None))
  /\ (forall (msg : Msg) (c : Cmd.t),
         snd (Update run m msg) = Some c -> dispatches touchesForge c = false).
Proof.
  intros Hdetect Hreach.
  destruct (reachable_without_forge m Hdetect Hreach) as [Hf Hs].
  split; [exact Hf|]. rewrite Hf. split; [|split].
  - intros w sessions err trace Hc. split.
    + intros s Hin.
      destruct (enrich_facts.cycle_published _ _ _ _ _ Hc)
        as [(-> & _ & _) | (_ & -> & _)]; [|inversion Hin].
      destruct (cycle_facts.published_from_block _ _ _ _ _ Hc Hin)
        as (block & src & Hb & _ & ->).
      rewrite enrich_facts.enrich_result. cbn.
      now apply git_facts.parseBlock_slug in Hb as (_ & Hnone & _).
    + intros kind branch Hin.
      destruct (cycle_facts.FetchPR_call_means_forge _ _ _ _ _ _ _ Hc Hin) as [f Hsome].
      discriminate.
  - intros Hnormal. now apply manage_key_without_forge.
  - intros msg c Hc. now apply (update_facts.Update_no_forge_call run m msg c).
Qed.



End WithLibraries.

(** C9 at program start on a host with no remote and no forge command. *)
Lemma nil_forge_is_never_invoked_witness :
  Model.forge fixture.startNoForge = None
  /\ (forall (w : World) (sessions : list model.Session.t) (err : option string)
             (trace : list Event),
         fetchSessionsCmd (H := fixture.ascii) w (Model.forge fixture.startNoForge)
           = (sessionsLoadedMsg sessions err, trace) ->
         (forall s : model.Session.t, s ∈ sessions -> model.Session.PR s = None)
         /\ (forall kind branch : string, CallFetchPR kind branch ∉ trace))
  /\ (Model.state fixture.startNoForge = stateNormal ->
      Update (H := fixture.ascii) fixture.hostNoForge fixture.startNoForge (KeyMsg "m")
      = (fixture.startNoForge, None))
  /\ (forall (msg : Msg) (c : Cmd.t),
         snd (Update (H := fixture.ascii) fixture.hostNoForge fixture.startNoForge msg)
           = Some c ->
         dispatches touchesForge c = false).
Proof.
  apply (nil_forge_is_never_invoked (H := fixture.ascii) (H0 := fixture.json [] [])
           fixture.hostNoForge fixture.startNoForge).
  - vm_compute. reflexivity.
  - apply reach_New.
Defined.




End machine.

(** * Further properties *)

(** ** Package [git]: slugs and the porcelain parser *)

Module git_more.

Import props.

Lemma append_cons (c : ascii) (a b : string) :
  String c a +:+ b = String c (a +:+ b).
Proof. reflexivity. Qed.

Lemma prefix_nil (s : string) : String.prefix EmptyString s = true.
Proof. destruct s; reflexivity. Qed.

Lemma prefix_byte (c b : ascii) (s : string) :
  String.prefix (String c EmptyString) (String b s) = Ascii.eqb b c.
Proof.
  cbn. destruct (Ascii.ascii_dec c b) as [->|Hne].
  - now rewrite prefix_nil, Ascii.eqb_refl.
  - symmetry. apply Ascii.eqb_neq. congruence.
Qed.

(** Replacing the one byte [/] by the one byte [-] is a byte-wise map. *)
Lemma ReplaceAll_slash (s : string) :
  strings.ReplaceAll s "/" "-" = mapBytes slashToDash s.
Proof.
  unfold strings.ReplaceAll.
  induction s as [|c s IH]; [reflexivity|].
  cbn [strings.replace_go mapBytes]. rewrite prefix_byte.
  unfold slashToDash at 1. destruct (Ascii.eqb c "/"); cbn; now rewrite IH.
Qed.

Lemma lowerASCII_map (s : string) : strings.lowerASCII s = mapBytes strings.lowerByte s.
Proof. induction s as [|c s IH]; [reflexivity|]. cbn. now rewrite IH. Qed.

Lemma mapBytes_mapBytes (f g : ascii -> ascii) (s : string) :
  mapBytes f (mapBytes g s) = mapBytes (fun c => f (g c)) s.
Proof. induction s as [|c s IH]; [reflexivity|]. cbn. now rewrite IH. Qed.

Lemma mapBytes_ext (f g : ascii -> ascii) (s : string) :
  (forall c, f c = g c) -> mapBytes f s = mapBytes g s.
Proof. intros Hfg. induction s as [|c s IH]; [reflexivity|]. cbn. now rewrite Hfg, IH. Qed.

Lemma mapBytes_app (f : ascii -> ascii) (a b : string) :
  mapBytes f (a +:+ b) = mapBytes f a +:+ mapBytes f b.
Proof.
  induction a as [|c a IH]; [reflexivity|].
  rewrite append_cons. simpl. now rewrite IH.
Qed.

Lemma mapBytes_length (f : ascii -> ascii) (s : string) :
  String.length (mapBytes f s) = String.length s.
Proof. induction s as [|c s IH]; [reflexivity|]. cbn. now rewrite IH. Qed.

Lemma hasByte_mapBytes (f : ascii -> ascii) (c : ascii) (s : string) :
  (forall b, f b <> c) -> hasByte c (mapBytes f s) = false.
Proof.
  intros Hf. induction s as [|b s IH]; [reflexivity|].
  cbn. rewrite IH, orb_false_r. apply Ascii.eqb_neq, Hf.
Qed.

Lemma isASCII_mapBytes (f : ascii -> ascii) (s : string) :
  (forall c, strings.isASCIIByte c = true -> strings.isASCIIByte (f c) = true) ->
  strings.isASCII s = true -> strings.isASCII (mapBytes f s) = true.
Proof.
  intros Hf. induction s as [|c s IH]; [reflexivity|].
  cbn [strings.isASCII mapBytes]. intros [Hc Hs]%andb_true_iff.
  now rewrite Hf, IH.
Qed.

Lemma isASCII_app (a b : string) :
  strings.isASCII (a +:+ b) = strings.isASCII a && strings.isASCII b.
Proof.
  induction a as [|c a IH]; [reflexivity|].
  rewrite append_cons. simpl. now rewrite IH, andb_assoc.
Qed.

Lemma slashToDash_not_slash (b : ascii) : slashToDash b <> "/"%char.
Proof.
  unfold slashToDash. destruct (Ascii.eqb_spec b "/"); [discriminate | assumption].
Qed.

Lemma slug_byte_ascii (c : ascii) :
  strings.isASCIIByte c = true ->
  strings.isASCIIByte (slashToDash (strings.lowerByte c)) = true.
Proof. destruct c as [[] [] [] [] [] [] [] []]; intros Hc; try discriminate Hc; reflexivity. Qed.

Lemma slug_byte_stable (c : ascii) :
  slashToDash (strings.lowerByte (slashToDash (strings.lowerByte c)))
  = slashToDash (strings.lowerByte c).
Proof. destruct c as [[] [] [] [] [] [] [] []]; reflexivity. Qed.

Section WithUnicode.
Context `{strings.Unicode}.

(** The slug of a branch that is pure ASCII and not empty, byte by byte. *)
Lemma BranchToSlug_ascii (branch : string) :
  branch <> EmptyString ->
  strings.isASCII branch = true ->
  git.BranchToSlug branch
  = mapBytes (fun c => slashToDash (strings.lowerByte c)) branch.
Proof.
  intros Hne Hascii. unfold git.BranchToSlug, strings.ToLower.
  destruct (String.eqb_spec branch EmptyString) as [->|_]; [congruence|].
  now rewrite Hascii, ReplaceAll_slash, lowerASCII_map, mapBytes_mapBytes.
Qed.

(** X1: the slug [BranchToSlug] returns holds no slash, for every branch
    name and whatever the Unicode case mapping does. *)
Theorem slug_has_no_slash (branch : string) :
  hasByte "/" (git.BranchToSlug branch) = false.
Proof.
  unfold git.BranchToSlug.
  destruct (String.eqb branch EmptyString); [reflexivity|].
  rewrite ReplaceAll_slash. apply hasByte_mapBytes, slashToDash_not_slash.
Qed.

(** X2: on a branch name of ASCII bytes [BranchToSlug] keeps the length of
    a name that is not empty, and the slug of a slug is the slug itself. *)
Theorem slug_of_slug (branch : string) :
  strings.isASCII branch = true ->
  git.BranchToSlug (git.BranchToSlug branch) = git.BranchToSlug branch
  /\ (branch <> EmptyString ->
      String.length (git.BranchToSlug branch) = String.length branch).
Proof.
  intros Hascii.
  destruct (String.eqb_spec branch EmptyString) as [->|Hne]; [split; [reflexivity|congruence]|].
  rewrite (BranchToSlug_ascii branch Hne Hascii). split.
  - rewrite BranchToSlug_ascii.
    + rewrite mapBytes_mapBytes. apply mapBytes_ext, slug_byte_stable.
    + destruct branch; [congruence | discriminate].
    + apply isASCII_mapBytes; [apply slug_byte_ascii | assumption].
  - intros _. apply mapBytes_length.
Qed.

(** X3: slugs collide: two ASCII branch names that differ only in having a
    slash where the other has a dash get the same slug. *)
Theorem slug_collision (a b : string) :
  strings.isASCII a = true ->
  strings.isASCII b = true ->
  a +:+ "/" +:+ b <> a +:+ "-" +:+ b
  /\ git.BranchToSlug (a +:+ "/" +:+ b) = git.BranchToSlug (a +:+ "-" +:+ b).
Proof.
  intros Ha Hb. split.
  - induction a as [|c a IH]; cbn; [discriminate|].
    intros [= Heq]. apply IH; [|exact Heq].
    cbn in Ha. now apply andb_true_iff in Ha as [_ Ha].
  - rewrite !BranchToSlug_ascii.
    + rewrite !mapBytes_app. reflexivity.
    + destruct a; discriminate.
    + rewrite !isASCII_app, Ha, Hb. reflexivity.
    + destruct a; discriminate.
    + rewrite !isASCII_app, Ha, Hb. reflexivity.
Qed.

End WithUnicode.

Lemma slug_of_slug_witness :
  git.BranchToSlug (H := fixture.ascii) (git.BranchToSlug (H := fixture.ascii) "Feat/User-Auth")
  = git.BranchToSlug (H := fixture.ascii) "Feat/User-Auth"
  /\ ("Feat/User-Auth" <> EmptyString ->
      String.length (git.BranchToSlug (H := fixture.ascii) "Feat/User-Auth")
      = String.length "Feat/User-Auth").
Proof.
  apply (slug_of_slug (H := fixture.ascii) "Feat/User-Auth"). reflexivity.
Defined.

Lemma slug_collision_witness :
  "feat" +:+ "/" +:+ "x" <> "feat" +:+ "-" +:+ "x"
  /\ git.BranchToSlug (H := fixture.ascii) ("feat" +:+ "/" +:+ "x")
     = git.BranchToSlug (H := fixture.ascii) ("feat" +:+ "-" +:+ "x").
Proof.
  apply (slug_collision (H := fixture.ascii) "feat" "x"); reflexivity.
Defined.

End git_more.

(** ** Package [git]: reading the porcelain listing *)

Module porcelain.

Import props.

Lemma append_assoc (a b c : string) : (a +:+ b) +:+ c = a +:+ (b +:+ c).
Proof.
  induction a as [|x a IH]; [reflexivity|].
  rewrite !git_more.append_cons. now rewrite IH.
Qed.

Lemma append_nil_r (a : string) : a +:+ EmptyString = a.
Proof.
  induction a as [|x a IH]; [reflexivity|].
  rewrite git_more.append_cons. now rewrite IH.
Qed.

Lemma rev_app_app (a b s : string) :
  String.rev_app a b +:+ s = String.rev_app a (b +:+ s).
Proof.
  revert b. induction a as [|c a IH]; intros b; [reflexivity|].
  cbn [String.rev_app]. now rewrite IH.
Qed.

Lemma rev_cons_app (c : ascii) (cur s : string) :
  String.rev (String c cur) +:+ s = String.rev cur +:+ String c s.
Proof. unfold String.rev. cbn [String.rev_app]. now rewrite !rev_app_app. Qed.

Lemma prefix_app (p s : string) : String.prefix p (p +:+ s) = true.
Proof.
  induction p as [|c p IH]; [apply git_more.prefix_nil|].
  rewrite git_more.append_cons. simpl.
  destruct (Ascii.ascii_dec c c); [exact IH | congruence].
Qed.

Lemma drop_app (p s : string) : strings.drop (String.length p) (p +:+ s) = s.
Proof.
  induction p as [|c p IH]; [now destruct s|].
  rewrite git_more.append_cons. exact IH.
Qed.

(** A string that has a prefix is the prefix followed by the rest. *)
Lemma prefix_drop (p s : string) :
  String.prefix p s = true -> s = p +:+ strings.drop (String.length p) s.
Proof.
  revert s. induction p as [|c p IH]; intros s Hp; [now destruct s|].
  destruct s as [|b s]; [discriminate|].
  simpl in Hp. destruct (Ascii.ascii_dec c b) as [->|]; [|discriminate].
  rewrite git_more.append_cons. simpl. f_equal. now apply IH.
Qed.

Lemma oneLine_cons (c : ascii) (s : string) :
  oneLine (String c s) = true ->
  Ascii.eqb c (ascii_of_nat 10) = false /\ oneLine s = true.
Proof.
  unfold oneLine. simpl. rewrite negb_orb.
  intros [Hc Hs]%andb_true_iff. split; [now apply negb_true_iff|assumption].
Qed.

(** Splitting at line feeds takes a first line off the text. *)
Lemma split_line (s rest cur : string) :
  oneLine s = true ->
  strings.split_go git.newline 0 cur (s +:+ git.newline +:+ rest)
  = (String.rev cur +:+ s) :: strings.split_go git.newline 0 EmptyString rest.
Proof.
  revert cur. induction s as [|c s IH]; intros cur Hs.
  - change (EmptyString +:+ git.newline +:+ rest)
      with (String (ascii_of_nat 10) rest).
    cbn [strings.split_go]. unfold git.newline at 1.
    rewrite git_more.prefix_byte, Ascii.eqb_refl. simpl.
    now rewrite append_nil_r.
  - apply oneLine_cons in Hs as [Hc Hs].
    change (String c s +:+ git.newline +:+ rest)
      with (String c (s +:+ git.newline +:+ rest)).
    cbn [strings.split_go]. unfold git.newline at 1.
    rewrite git_more.prefix_byte, Hc, (IH _ Hs).
    now rewrite rev_cons_app.
Qed.

Lemma split_last (s cur : string) :
  oneLine s = true ->
  strings.split_go git.newline 0 cur s = [String.rev cur +:+ s].
Proof.
  revert cur. induction s as [|c s IH]; intros cur Hs.
  - simpl. now rewrite append_nil_r.
  - apply oneLine_cons in Hs as [Hc Hs].
    cbn [strings.split_go]. unfold git.newline at 1.
    rewrite git_more.prefix_byte, Hc, (IH _ Hs).
    now rewrite rev_cons_app.
Qed.

Lemma Split_three_lines (l1 l2 l3 : string) :
  oneLine l1 = true -> oneLine l2 = true -> oneLine l3 = true ->
  strings.Split (l1 +:+ git.newline +:+ l2 +:+ git.newline +:+ l3) git.newline
  = [l1; l2; l3].
Proof.
  intros H1 H2 H3. unfold strings.Split.
  rewrite (split_line l1 _ _ H1), (split_line l2 _ _ H2), (split_last l3 _ H3).
  reflexivity.
Qed.

Lemma oneLine_app (a b : string) :
  oneLine (a +:+ b) = oneLine a && oneLine b.
Proof.
  unfold oneLine. induction a as [|c a IH]; [reflexivity|].
  rewrite git_more.append_cons. simpl. rewrite !negb_orb in *.
  now rewrite IH, andb_assoc.
Qed.

(** The three kinds of line [parseBlock] reads, and the line it skips. *)
Lemma parseLine_worktree (st : string * string * bool) (path : string) :
  git.parseLine st ("worktree " +:+ path) = (path, snd (fst st), snd st).
Proof.
  destruct st as [[p b] d]. unfold git.parseLine, strings.TrimPrefix, strings.HasPrefix.
  now rewrite !prefix_app, drop_app.
Qed.

Lemma parseLine_HEAD (st : string * string * bool) (sha : string) :
  git.parseLine st ("HEAD " +:+ sha) = st.
Proof. destruct st as [[p b] d]. reflexivity. Qed.

Lemma parseLine_branch (st : string * string * bool) (branch : string) :
  git.parseLine st ("branch refs/heads/" +:+ branch) = (fst (fst st), branch, snd st).
Proof.
  destruct st as [[p b] d]. unfold git.parseLine, strings.TrimPrefix, strings.HasPrefix.
  rewrite (prefix_app "branch refs/heads/"), (drop_app "branch refs/heads/").
  reflexivity.
Qed.

(** The path [parseLine] holds after some lines is the one it started
    with, or the rest of one of the lines after the word [worktree]. *)
Lemma fold_path (lines : list string) (st : string * string * bool) :
  fst (fst (fold_left git.parseLine lines st)) = fst (fst st)
  \/ exists line : string,
       line ∈ lines
       /\ line = "worktree " +:+ fst (fst (fold_left git.parseLine lines st)).
Proof.
  revert st. induction lines as [|line lines IH]; intros st; [now left|].
  cbn [fold_left]. destruct (IH (git.parseLine st line)) as [Heq | (l & Hl & Heq)].
  - rewrite Heq. destruct st as [[p b] d]. unfold git.parseLine.
    destruct (strings.HasPrefix line "worktree ") eqn:Hw.
    + right. exists line. split; [apply list_elem_of_here|].
      cbn. unfold strings.TrimPrefix. rewrite Hw. now apply prefix_drop.
    + left. destruct (strings.HasPrefix line "branch "); [reflexivity|].
      destruct (String.eqb line "detached"); reflexivity.
  - right. exists l. split; [now apply list_elem_of_further | exact Heq].
Qed.

Section WithUnicode.
Context `{strings.Unicode}.

(** X4: [parseBlock] reads a porcelain block back: from the lines
    [worktree <path>], [HEAD <sha>] and [branch refs/heads/<branch>] it
    yields the session of that path and branch, with the slug of the
    branch and no liveness or review data; with the line [detached] in
    place of the branch line it yields the branch and slug [detached]. *)
Theorem parseBlock_reads_porcelain (path sha branch : string) :
  path <> EmptyString ->
  oneLine path = true -> oneLine sha = true -> oneLine branch = true ->
  git.parseBlock
    (("worktree " +:+ path) +:+ git.newline +:+ ("HEAD " +:+ sha) +:+ git.newline
     +:+ ("branch refs/heads/" +:+ branch))
  = Some (model.Session.mk path branch (git.BranchToSlug branch) false false None)
  /\ git.parseBlock
       (("worktree " +:+ path) +:+ git.newline +:+ ("HEAD " +:+ sha) +:+ git.newline
        +:+ "detached")
     = Some (model.Session.mk path "detached" "detached" false false None).
Proof.
  intros Hne Hp Hs Hb.
  assert (Hne' : String.eqb path EmptyString = false)
    by (destruct path; [congruence | reflexivity]).
  split; unfold git.parseBlock.
  - rewrite Split_three_lines; [|rewrite oneLine_app; (rewrite Hp || rewrite Hs || rewrite Hb); reflexivity..].
    cbn [fold_left].
    rewrite parseLine_worktree, parseLine_HEAD, parseLine_branch.
    cbn [fst snd]. cbv beta iota. now rewrite Hne'.
  - rewrite Split_three_lines; [|try (rewrite oneLine_app; (rewrite Hp || rewrite Hs)); reflexivity..].
    cbn [fold_left].
    rewrite parseLine_worktree, parseLine_HEAD. cbn [fst snd].
    change (git.parseLine (path, EmptyString, false) "detached")
      with (path, EmptyString, true).
    cbv beta iota. now rewrite Hne'.
Qed.

(** X5: a session [parseBlock] yields has a path that is not empty and is
    the text after the word [worktree] on one of the lines of the block; a
    block without such a line yields no session. *)
Theorem parseBlock_needs_worktree_line (block : string) (sess : model.Session.t) :
  git.parseBlock block = Some sess ->
  model.Session.Path sess <> EmptyString
  /\ exists line : string,
       line ∈ strings.Split block git.newline
       /\ line = "worktree " +:+ model.Session.Path sess.
Proof.
  unfold git.parseBlock.
  pose proof (fold_path (strings.Split block git.newline) (EmptyString, EmptyString, false))
    as Hfold.
  destruct (fold_left _ _ _) as [[path branch] detached]. cbn [fst] in Hfold.
  destruct (String.eqb_spec path EmptyString) as [->|Hne]; [discriminate|].
  intros [= <-]. cbn [model.Session.Path]. split; [assumption|].
  destruct Hfold as [-> | Hline]; [congruence | exact Hline].
Qed.

End WithUnicode.

Lemma parseBlock_reads_porcelain_witness :
  git.parseBlock (H := fixture.ascii)
    (("worktree " +:+ "/repo/wt") +:+ git.newline +:+ ("HEAD " +:+ "2222") +:+ git.newline
     +:+ ("branch refs/heads/" +:+ "fix/Login-Bug"))
  = Some (model.Session.mk "/repo/wt" "fix/Login-Bug"
            (git.BranchToSlug (H := fixture.ascii) "fix/Login-Bug") false false None)
  /\ git.parseBlock (H := fixture.ascii)
       (("worktree " +:+ "/repo/wt") +:+ git.newline +:+ ("HEAD " +:+ "2222") +:+ git.newline
        +:+ "detached")
     = Some (model.Session.mk "/repo/wt" "detached" "detached" false false None).
Proof.
  apply (parseBlock_reads_porcelain (H := fixture.ascii) "/repo/wt" "2222" "fix/Login-Bug");
    [discriminate | reflexivity | reflexivity | reflexivity].
Defined.

Lemma parseBlock_needs_worktree_line_witness :
  model.Session.Path (fixture.mainWith None false) <> EmptyString
  /\ exists line : string,
       line ∈ strings.Split ("worktree /repo" +:+ git.newline +:+ "branch refs/heads/main")
                git.newline
       /\ line = "worktree " +:+ model.Session.Path (fixture.mainWith None false).
Proof.
  apply (parseBlock_needs_worktree_line (H := fixture.ascii)
           ("worktree /repo" +:+ git.newline +:+ "branch refs/heads/main")
           (fixture.mainWith None false)).
  reflexivity.
Defined.

End porcelain.

(** ** The enrichment cycle, further *)

Module cycle_more.

Import tui spec props.




Section WithUnicode.
Context `{strings.Unicode}.

(** X6: a cycle publishes the worktrees [git] listed, in the order listed
    and with path, branch and slug untouched: whatever tmux and the forge
    answer for a session, none is dropped, added or moved. *)
Theorem cycle_keeps_worktrees (w : World) (f : option forge.Forge)
  (sessions : list model.Session.t) (trace : list Event) :
  fetchSessionsCmd w f = (sessionsLoadedMsg sessions None, trace) ->
  map worktreeOf sessions = map worktreeOf (fst (git.ListWorktrees (run w))).
Proof.
  intros Hc.
  destruct (enrich_facts.cycle_published _ _ _ _ _ Hc) as [(_ & -> & _) | ([e He] & _)];
    [|discriminate].
  rewrite List.map_map. apply List.map_ext. intros s.
  now rewrite enrich_facts.enrich_result.
Qed.

(** X7: the flag a cycle publishes for a session is the signal of its
    review when one is attached (failed pipeline or unresolved threads),
    and otherwise the idle probe of its tmux session when that is alive;
    a session with neither a review nor a tmux session is not flagged. *)
Theorem published_flag (w : World) (f : option forge.Forge)
  (sessions : list model.Session.t) (trace : list Event) (s : model.Session.t) :
  fetchSessionsCmd w f = (sessionsLoadedMsg sessions None, trace) ->
  s ∈ sessions ->
  model.Session.NeedsInput s =
  match model.Session.PR s with
  | Some pr => reviewSignal pr
  | None =>
      tmux.SessionExists (tmuxd w) (model.Session.Slug s)
      && tmux.NeedsInput (tmuxd w) (model.Session.Slug s)
  end.
Proof.
  intros Hc Hs. destruct (model.Session.PR s) as [pr|] eqn:Hpr.
  - exact (cycle_facts.published_flag_with_review _ _ _ _ _ _ Hc Hs Hpr).
  - exact (cycle_facts.published_flag_without_review _ _ _ _ _ Hc Hs Hpr).
Qed.


Context `{Bubbles}.

(** X9: when [git worktree list] fails, the cycle publishes the error with
    no session and calls no probe; [Update] then keeps the sessions it had,
    records the error, ends the loading state and dispatches nothing. *)
Theorem failed_listing_probes_nothing (w : World) (f : option forge.Forge)
  (out e : string) (run' : Exec) (m : Model.t) :
  run w (Command "git" ["worktree"; "list"; "--porcelain"] EmptyString) = CliErr out e ->
  fetchSessionsCmd w f
  = (sessionsLoadedMsg [] (Some ("git worktree list: " +:+ e)), [])
  /\ Model.sessions (fst (Update run' m (fst (fetchSessionsCmd w f)))) = Model.sessions m
  /\ Model.err (fst (Update run' m (fst (fetchSessionsCmd w f))))
     = Some ("git worktree list: " +:+ e)
  /\ Model.loading (fst (Update run' m (fst (fetchSessionsCmd w f)))) = false
  /\ snd (Update run' m (fst (fetchSessionsCmd w f))) = None.
Proof.
  intros Hrun.
  assert (Hc : fetchSessionsCmd w f
               = (sessionsLoadedMsg [] (Some ("git worktree list: " +:+ e)), [])).
  { unfold fetchSessionsCmd, git.ListWorktrees. now rewrite Hrun. }
  rewrite Hc. repeat split.
Qed.

End WithUnicode.

Lemma cycle_keeps_worktrees_witness :
  map worktreeOf
    [fixture.mainWith (Some fixture.green) false;
     fixture.featWith (Some fixture.green) false]
  = map worktreeOf (fst (git.ListWorktrees (H := fixture.ascii) (run fixture.idleWorld))).
Proof.
  apply (cycle_keeps_worktrees (H := fixture.ascii) fixture.idleWorld
           (Some (fixture.github [fixture.greenPR])) _
           (snd (fetchSessionsCmd (H := fixture.ascii) fixture.idleWorld
                   (Some (fixture.github [fixture.greenPR]))))).
  vm_compute. reflexivity.
Defined.

Lemma published_flag_witness :
  model.Session.NeedsInput (fixture.featWith None true) =
  match model.Session.PR (fixture.featWith None true) with
  | Some pr => reviewSignal pr
  | None =>
      tmux.SessionExists (tmuxd fixture.idleWorld)
        (model.Session.Slug (fixture.featWith None true))
      && tmux.NeedsInput (tmuxd fixture.idleWorld)
           (model.Session.Slug (fixture.featWith None true))
  end.
Proof.
  apply (published_flag (H := fixture.ascii) fixture.idleWorld None
           [fixture.mainWith None false; fixture.featWith None true]
           (snd (fetchSessionsCmd (H := fixture.ascii) fixture.idleWorld None))).
  - vm_compute. reflexivity.
  - apply list_elem_of_further, list_elem_of_here.
Defined.


Lemma failed_listing_probes_nothing_witness :
  let w := mkWorld (fun _ => CliErr EmptyString "exit status 128") fixture.idleServer in
  let f := Some (fixture.github [fixture.greenPR]) in
  fetchSessionsCmd (H := fixture.ascii) w f
  = (sessionsLoadedMsg [] (Some ("git worktree list: " +:+ "exit status 128")), [])
  /\ Model.sessions
       (fst (Update (H := fixture.ascii) fixture.host fixture.start
               (fst (fetchSessionsCmd (H := fixture.ascii) w f))))
     = Model.sessions fixture.start
  /\ Model.err
       (fst (Update (H := fixture.ascii) fixture.host fixture.start
               (fst (fetchSessionsCmd (H := fixture.ascii) w f))))
     = Some ("git worktree list: " +:+ "exit status 128")
  /\ Model.loading
       (fst (Update (H := fixture.ascii) fixture.host fixture.start
               (fst (fetchSessionsCmd (H := fixture.ascii) w f))))
     = false
  /\ snd (Update (H := fixture.ascii) fixture.host fixture.start
            (fst (fetchSessionsCmd (H := fixture.ascii) w f)))
     = None.
Proof.
  apply (failed_listing_probes_nothing (H := fixture.ascii)
           (mkWorld (fun _ => CliErr EmptyString "exit status 128") fixture.idleServer)
           (Some (fixture.github [fixture.greenPR]))
           EmptyString "exit status 128" fixture.host fixture.start).
  reflexivity.
Defined.

End cycle_more.

(** ** Package [forge], further *)

Module forge_more.

Import tui spec props.





Lemma ghCIStatus_failed (s : string) :
  String.eqb (forge.ghCIStatus s) "failed"
  = String.eqb s "FAILURE" || String.eqb s "ERROR".
Proof.
  unfold forge.ghCIStatus.
  destruct (String.eqb_spec s "SUCCESS") as [->|_]; [reflexivity|].
  destruct (String.eqb_spec s "FAILURE") as [->|_]; [reflexivity|].
  destruct (String.eqb_spec s "ERROR") as [->|_]; [reflexivity|].
  cbn [orb].
  destruct (String.eqb s "PENDING" || String.eqb s "EXPECTED" || String.eqb s "STALE");
    [reflexivity|].
  destruct (String.eqb s ""); reflexivity.
Qed.

Lemma ghCIStatus_range (s : string) :
  In (forge.ghCIStatus s) ["success"; "failed"; "pending"; ""].
Proof.
  unfold forge.ghCIStatus.
  destruct (String.eqb s "SUCCESS"); [cbn; tauto|].
  destruct (String.eqb s "FAILURE" || String.eqb s "ERROR"); [cbn; tauto|].
  destruct (String.eqb s "PENDING" || String.eqb s "EXPECTED" || String.eqb s "STALE");
    [cbn; tauto|].
  destruct (String.eqb s ""); cbn; tauto.
Qed.

(** X11: the review made of a GitHub pull request has a pipeline status
    among [success], [failed], [pending] and the empty one, and gives the
    attention signal exactly when the check rollup is [FAILURE] or [ERROR]
    or the review decision is [CHANGES_REQUESTED] or [REVIEW_REQUIRED]; the
    review made of a GitLab merge request gives it exactly when the
    pipeline status is [failed] or the blocking discussions are reported
    unresolved, a missing pipeline or report counting as no signal. *)
Theorem review_signal_of_raw (p : forge.ghPR.t) (q : forge.glabMR.t) :
  In (model.PR.PipelineStatus (forge.ghOfFound p)) ["success"; "failed"; "pending"; ""]
  /\ reviewSignal (forge.ghOfFound p)
     = (String.eqb (forge.ghPR.StatusCheckRollup p) "FAILURE"
        || String.eqb (forge.ghPR.StatusCheckRollup p) "ERROR")
       || (String.eqb (forge.ghPR.ReviewDecision p) "CHANGES_REQUESTED"
           || String.eqb (forge.ghPR.ReviewDecision p) "REVIEW_REQUIRED")
  /\ reviewSignal (forge.glabOfFound q)
     = match forge.glabMR.Pipeline q with
       | Some st => String.eqb st "failed"
       | None => false
       end
       || match forge.glabMR.BlockingDiscussionsResolved q with
          | Some resolved => negb resolved
          | None => false
          end.
Proof.
  split; [apply ghCIStatus_range|]. split.
  - unfold reviewSignal, forge.ghOfFound. cbn. now rewrite ghCIStatus_failed.
  - unfold reviewSignal, forge.glabOfFound. cbn.
    destruct (forge.glabMR.Pipeline q); reflexivity.
Qed.

Section WithJSON.
Context `{forge.JSON}.

(** X12: a listing that decodes to no candidate gives no review and no
    error, on both backends. *)
Theorem empty_listing_is_absent (run : Exec) (branch out : string) :
  (run (forge.ghListCmd branch) = CliOk out ->
   forge.Unmarshal_ghPR out = Some [] ->
   forge.FetchPR forge.gitHub run branch = (None, None))
  /\ (run (forge.glabListCmd branch) = CliOk out ->
      forge.Unmarshal_glabMR out = Some [] ->
      forge.FetchPR forge.gitLab run branch = (None, None)).
Proof.
  split; intros Hrun Hdec; cbn; unfold forge.gitHub_FetchPR, forge.gitLab_FetchPR;
    now rewrite Hrun, Hdec.
Qed.

(** X13: every review [FetchPR] returns names the backend that returned
    it in its field [Forge]; and when the listing holds a candidate in the
    backend's open state, the review returned has the state [open]. *)
Theorem FetchPR_review_is_tagged (run : Exec) (branch : string) (pr : model.PR.t) :
  (fst (forge.FetchPR forge.gitHub run branch) = Some pr ->
   model.PR.Forge pr = forge.Kind forge.gitHub
   /\ forall (out : string) (prs : list forge.ghPR.t) (p : forge.ghPR.t),
        run (forge.ghListCmd branch) = CliOk out ->
        forge.Unmarshal_ghPR out = Some prs ->
        p ∈ prs -> ghOpen p = true -> model.PR.State pr = "open")
  /\ (fst (forge.FetchPR forge.gitLab run branch) = Some pr ->
      model.PR.Forge pr = forge.Kind forge.gitLab
      /\ forall (out : string) (mrs : list forge.glabMR.t) (q : forge.glabMR.t),
           run (forge.glabListCmd branch) = CliOk out ->
           forge.Unmarshal_glabMR out = Some mrs ->
           q ∈ mrs -> glabOpen q = true -> model.PR.State pr = "open").
Proof.
  split; cbn [forge.FetchPR forge.gitHub forge.gitLab forge.Kind].
  - unfold forge.gitHub_FetchPR, forge.pick.
    destruct (run _) as [out'|] eqn:Hrun; [|discriminate].
    destruct (forge.Unmarshal_ghPR out') as [prs'|] eqn:Hdec; [|discriminate].
    destruct (List.find _ prs') as [found|] eqn:Hfind.
    + intros [= <-]. split; [reflexivity|]. intros _ _ _ _ _ _ _.
      apply List.find_some in Hfind as [_ Hopen].
      now apply (proj1 (forge_facts.open_is_normalised found
                          (forge.glabMR.mk 0 "" "" "" false None None))).
    + destruct prs' as [|found prs'']; [discriminate|].
      intros [= <-]. split; [reflexivity|].
      intros out prs p [= <-] Hdec' Hp Hopen.
      rewrite Hdec in Hdec'. injection Hdec' as <-.
      apply list_elem_of_In in Hp.
      pose proof (List.find_none _ _ Hfind p Hp) as Hno.
      unfold ghOpen in Hopen. cbn in Hno. congruence.
  - unfold forge.gitLab_FetchPR, forge.pick.
    destruct (run _) as [out'|] eqn:Hrun; [|discriminate].
    destruct (forge.Unmarshal_glabMR out') as [mrs'|] eqn:Hdec; [|discriminate].
    destruct (List.find _ mrs') as [found|] eqn:Hfind.
    + intros [= <-]. split; [reflexivity|]. intros _ _ _ _ _ _ _.
      apply List.find_some in Hfind as [_ Hopen].
      now apply (proj2 (forge_facts.open_is_normalised
                          (forge.ghPR.mk 0 "" "" "" false "" "") found)).
    + destruct mrs' as [|found mrs'']; [discriminate|].
      intros [= <-]. split; [reflexivity|].
      intros out mrs q [= <-] Hdec' Hq Hopen.
      rewrite Hdec in Hdec'. injection Hdec' as <-.
      apply list_elem_of_In in Hq.
      pose proof (List.find_none _ _ Hfind q Hq) as Hno.
      unfold glabOpen in Hopen. cbn in Hno. congruence.
Qed.


Context `{strings.Unicode}.

(** X15: [Detect] returns [nil] when [git remote get-url origin] fails,
    without looking at [glab]; a forge it returns is the GitHub or the
    GitLab client; and a remote that names [github.com] selects GitHub
    even if it also names [gitlab]. *)
Theorem Detect_selects_backend (run : Exec) (repoRoot : string) :
  (cli_ok (run (Command "git" ["-C"; repoRoot; "remote"; "get-url"; "origin"] EmptyString))
   = false ->
   forge.Detect run repoRoot = None)
  /\ (forall f : forge.Forge,
         forge.Detect run repoRoot = Some f -> f = forge.gitHub \/ f = forge.gitLab)
  /\ (forall out : string,
         run (Command "git" ["-C"; repoRoot; "remote"; "get-url"; "origin"] EmptyString)
         = CliOk out ->
         strings.Contains (strings.ToLower (strings.TrimSpace out)) "github.com" = true ->
         forge.Detect run repoRoot = Some forge.gitHub).
Proof.
  unfold forge.Detect. repeat split.
  - destruct (run _); [discriminate | reflexivity].
  - intros f. destruct (run _) as [out|]; [|discriminate].
    destruct (strings.Contains _ "github.com"); [intros [= <-]; now left|].
    destruct (strings.Contains _ "gitlab"); [intros [= <-]; now right|].
    destruct (cli_ok _); [intros [= <-]; now right | discriminate].
  - intros out -> ->. reflexivity.
Qed.

Lemma cut_first (sep_free rest cur : string) :
  hasByte "/" sep_free = false ->
  strings.cut_go "/" cur (sep_free +:+ "/" +:+ rest)
  = Some (String.rev cur +:+ sep_free, rest).
Proof.
  revert cur. induction sep_free as [|c s IH]; intros cur Hfree.
  - change (EmptyString +:+ "/" +:+ rest) with (String "/" rest).
    cbn [strings.cut_go]. rewrite git_more.prefix_byte. cbn.
    now rewrite porcelain.append_nil_r.
  - cbn in Hfree. apply orb_false_iff in Hfree as [Hc Hs].
    change (String c s +:+ "/" +:+ rest) with (String c (s +:+ "/" +:+ rest)).
    cbn [strings.cut_go]. rewrite git_more.prefix_byte, Hc, (IH _ Hs).
    now rewrite porcelain.rev_cons_app.
Qed.

Lemma cut_none (s cur : string) :
  hasByte "/" s = false -> strings.cut_go "/" cur s = None.
Proof.
  revert cur. induction s as [|c s IH]; intros cur Hfree; [reflexivity|].
  cbn in Hfree. apply orb_false_iff in Hfree as [Hc Hs].
  cbn [strings.cut_go]. now rewrite git_more.prefix_byte, Hc, (IH _ Hs).
Qed.

(** X16: [DefaultBranch] is [main] when [git symbolic-ref] fails or prints
    a name without a slash, and otherwise the name it printed without its
    first component: [origin/release/2] gives [release/2]. *)
Theorem DefaultBranch_strips_remote (run : Exec) (repoRoot : string) :
  let cmd := Command "git" ["-C"; repoRoot; "symbolic-ref"; "--short";
                            "refs/remotes/origin/HEAD"] EmptyString in
  (cli_ok (run cmd) = false -> forge.DefaultBranch run repoRoot = "main")
  /\ (forall out : string,
         run cmd = CliOk out ->
         hasByte "/" (strings.TrimSpace out) = false ->
         forge.DefaultBranch run repoRoot = "main")
  /\ (forall out remote branch : string,
         run cmd = CliOk out ->
         strings.TrimSpace out = remote +:+ "/" +:+ branch ->
         hasByte "/" remote = false ->
         forge.DefaultBranch run repoRoot = branch).
Proof.
  cbn zeta. unfold forge.DefaultBranch, strings.Cut. repeat split.
  - destruct (run _); [discriminate | reflexivity].
  - intros out -> Hfree. now rewrite cut_none.
  - intros out remote branch -> -> Hfree. now rewrite cut_first.
Qed.

End WithJSON.

Lemma empty_listing_is_absent_witness :
  forge.FetchPR (fixture.github []) fixture.host "feat/x" = (None, None).
Proof.
  apply (proj1 (empty_listing_is_absent (H := fixture.json [] [])
                  fixture.host "feat/x" "[{}]")); reflexivity.
Defined.

Lemma FetchPR_review_is_tagged_witness :
  model.PR.Forge fixture.green = forge.Kind (fixture.github [fixture.mergedPR; fixture.greenPR])
  /\ forall (out : string) (prs : list forge.ghPR.t) (p : forge.ghPR.t),
       fixture.host (forge.ghListCmd "feat/x") = CliOk out ->
       forge.Unmarshal_ghPR (JSON := fixture.json [fixture.mergedPR; fixture.greenPR] []) out
       = Some prs ->
       p ∈ prs -> ghOpen p = true -> model.PR.State fixture.green = "open".
Proof.
  apply (proj1 (FetchPR_review_is_tagged
                  (H := fixture.json [fixture.mergedPR; fixture.greenPR] [])
                  fixture.host "feat/x" fixture.green)).
  reflexivity.
Defined.


Lemma Detect_selects_backend_witness :
  forge.Detect (H := fixture.json [] []) (H0 := fixture.ascii) fixture.host "/repo"
  = Some (fixture.github []).
Proof.
  apply (proj2 (proj2 (Detect_selects_backend (H := fixture.json [] [])
                         (H0 := fixture.ascii) fixture.host "/repo"))
           ("git@github.com:acme/repo.git" +:+ fixture.nl)); reflexivity.
Defined.

Lemma DefaultBranch_strips_remote_witness :
  forge.DefaultBranch (H0 := fixture.ascii)
    (fun _ => CliOk ("origin/release/2" +:+ fixture.nl)) "/repo"
  = "release/2".
Proof.
  apply (proj2 (proj2 (DefaultBranch_strips_remote (H0 := fixture.ascii)
                         (fun _ => CliOk ("origin/release/2" +:+ fixture.nl)) "/repo"))
           ("origin/release/2" +:+ fixture.nl) "origin" "release/2"); reflexivity.
Defined.

End forge_more.

(** ** Package [tmux], further *)

Module tmux_more.

Import tui spec props.

(** The three ways [EnsureSession] ends: the session was there; it was
    not and something failed, the server left as it was; it was not and a
    session was registered under the slug. *)
Lemma EnsureSession_cases (h : tmux.Host) (srv : tmux.Server) (d : tmux.Disk)
  (slug path : string) :
  (tmux.SessionExists srv slug = true
   /\ tmux.EnsureSession h (srv, d) slug path = ((srv, d), None))
  \/ (tmux.SessionExists srv slug = false
      /\ exists (d' : tmux.Disk) (e : string),
           tmux.EnsureSession h (srv, d) slug path = ((srv, d'), Some e))
  \/ (tmux.SessionExists srv slug = false
      /\ exists cfg : string,
           snd (tmux.configPath h d) = (cfg, None)
           /\ tmux.EnsureSession h (srv, d) slug path
              = ((tmux.mkServer ({[slug]} ∪ tmux.sessions srv) (tmux.capture_pane srv),
                  fst (tmux.configPath h d)), None)).
Proof.
  unfold tmux.EnsureSession.
  destruct (tmux.SessionExists srv slug) eqn:Hex; [left; auto|]. right.
  destruct (tmux.configPath h d) as [d1 [cfg [e|]]]; [left; eauto|].
  unfold tmux.new_session.
  change (bool_decide (slug ∈ tmux.sessions srv)) with (tmux.SessionExists srv slug).
  rewrite Hex. destruct (tmux.spawn h cfg slug path) as [out|out e]; [right | left]; eauto.
Qed.

Lemma SessionExists_added (srv : tmux.Server) (slug other : string) :
  tmux.SessionExists
    (tmux.mkServer ({[slug]} ∪ tmux.sessions srv) (tmux.capture_pane srv)) other
  = String.eqb other slug || tmux.SessionExists srv other.
Proof.
  unfold tmux.SessionExists. cbn [tmux.sessions].
  destruct (String.eqb_spec other slug) as [->|Hne]; cbn [orb].
  - apply bool_decide_eq_true. apply elem_of_union_l. now apply elem_of_singleton.
  - apply bool_decide_ext. rewrite elem_of_union, elem_of_singleton. tauto.
Qed.


(** X18: an [EnsureSession] that starts a session has written the tmux
    configuration first: the file [tmux.conf] under [deckard] in the
    user's configuration directory holds the configuration text, its
    directory exists, and no other file was written. *)
Theorem EnsureSession_writes_config (h : tmux.Host) (st : tmux.Server * tmux.Disk)
  (slug path dir : string) :
  tmux.SessionExists (fst st) slug = false ->
  tmux.UserConfigDir h = inl dir ->
  snd (tmux.EnsureSession h st slug path) = None ->
  let p := tmux.Join h [dir; "deckard"; "tmux.conf"] in
  let disk := snd (fst (tmux.EnsureSession h st slug path)) in
  tmux.files disk !! p = Some tmux.conf
  /\ tmux.ancestors h (tmux.Dir h p) ⊆ tmux.dirs disk
  /\ forall q : string, q <> p -> tmux.files disk !! q = tmux.files (snd st) !! q.
Proof.
  destruct st as [srv d]. cbn [fst snd]. intros Hex Hdir.
  destruct (EnsureSession_cases h srv d slug path)
    as [(Hex' & _) | [(_ & d' & e & ->) | (_ & cfg & Hcfg & ->)]];
    [congruence | discriminate |].
  intros _. cbn zeta. cbn [fst snd].
  unfold tmux.configPath in *. rewrite Hdir in *.
  destruct (tmux.mkdir_err h _); [discriminate|].
  destruct (tmux.write_err h _); [discriminate|].
  cbn [fst tmux.files tmux.dirs]. repeat split.
  - apply lookup_insert_eq.
  - apply union_subseteq_r.
  - intros q Hq. now apply lookup_insert_ne.
Qed.

Section WithBubbles.
Context `{strings.Unicode} `{Bubbles}.

(** X19: the terminal is handed to tmux only for a session that exists:
    when [Update] answers the result of [ensureAndAttachCmd] with a
    command, the command attaches to the slug of the session, and tmux has
    a session registered under that slug; when [EnsureSession] failed,
    [Update] dispatches nothing and records the error. *)
Theorem attach_needs_session (h : tmux.Host) (st : tmux.Server * tmux.Disk)
  (s : model.Session.t) (run : Exec) (m : Model.t) :
  let result := ensureAndAttach h st s in
  (forall c : Cmd.t,
      snd (Update run m (snd result)) = Some c ->
      c = Cmd.ExecProcess (model.Session.Slug s)
      /\ tmux.SessionExists (fst (fst result)) (model.Session.Slug s) = true)
  /\ (forall e : string,
         snd (tmux.EnsureSession h st (model.Session.Slug s) (model.Session.Path s))
         = Some e ->
         snd (Update run m (snd result)) = None
         /\ Model.err (fst (Update run m (snd result))) = Some e).
Proof.
  destruct st as [srv d]. cbn zeta. unfold ensureAndAttach.
  destruct (EnsureSession_cases h srv d (model.Session.Slug s) (model.Session.Path s))
    as [(Hex & ->) | [(Hex & d' & e & ->) | (Hex & cfg & _ & ->)]]; cbn.
  - split; [|discriminate]. intros c [= <-]. auto.
  - split; [discriminate|]. intros e' [= <-]. auto.
  - split; [|discriminate]. intros c [= <-]. split; [reflexivity|].
    rewrite SessionExists_added, String.eqb_refl. reflexivity.
Qed.

End WithBubbles.

Lemma EnsureSession_writes_config_witness :
  let once :=
    tmux.EnsureSession fixture.os (fixture.idleServer, fixture.emptyDisk)
      "fix-login-bug" "/repo/wt" in
  let p := tmux.Join fixture.os ["/home/u/.config"; "deckard"; "tmux.conf"] in
  tmux.files (snd (fst once)) !! p = Some tmux.conf
  /\ tmux.ancestors fixture.os (tmux.Dir fixture.os p) ⊆ tmux.dirs (snd (fst once))
  /\ forall q : string,
       q <> p -> tmux.files (snd (fst once)) !! q = tmux.files fixture.emptyDisk !! q.
Proof.
  apply (EnsureSession_writes_config fixture.os (fixture.idleServer, fixture.emptyDisk)
           "fix-login-bug" "/repo/wt" "/home/u/.config").
  - vm_compute. reflexivity.
  - reflexivity.
  - vm_compute. reflexivity.
Defined.

End tmux_more.

(** ** Package [tui], further *)

Module tui_more.

Import tui spec props.

(** X20: the indicator of a list item is the triangle exactly when the
    session needs input, whether or not its tmux session runs: an item
    built with a spinner frame shows the frame only for a running session
    that does not need input, and the title ends with the slug. *)
Theorem Title_shows_attention (i : sessionItem) :
  In (spinnerChar i) spinnerFrames ->
  strings.HasPrefix (item.Title i) "▲" = model.Session.NeedsInput (s i)
  /\ (model.Session.NeedsInput (s i) = false ->
      model.Session.TmuxRunning (s i) = true ->
      item.Title i = spinnerChar i +:+ " " +:+ model.Session.Slug (s i))
  /\ item.FilterValue i = model.Session.Slug (s i).
Proof.
  intros Hframe. unfold item.Title, item.FilterValue, strings.HasPrefix.
  destruct (model.Session.NeedsInput (s i)).
  - split; [apply (porcelain.prefix_app "▲")|]. split; [discriminate | reflexivity].
  - destruct (model.Session.TmuxRunning (s i)).
    + split; [|split; reflexivity].
      cbn in Hframe. destruct Hframe as [<- | [<- | [<- | [<- | []]]]]; reflexivity.
    + split; [reflexivity|]. split; [discriminate | reflexivity].
Qed.

Section WithBubbles.
Context `{strings.Unicode} `{Bubbles}.
Variable run : Exec.

(** X21: [selectedSession] is the session at the cursor of the list when
    the cursor is inside the session list, and [nil] exactly when the
    cursor is negative or at or past its end (an empty list included). *)
Theorem selectedSession_in_bounds (m : Model.t) :
  (forall sel : model.Session.t,
      selectedSession m = Some sel ->
      (0 <= Index (Model.list m) < Z.of_nat (length (Model.sessions m)))%Z
      /\ Model.sessions m !! Z.to_nat (Index (Model.list m)) = Some sel)
  /\ (selectedSession m = None <->
      (Index (Model.list m) < 0)%Z
      \/ (Z.of_nat (length (Model.sessions m)) <= Index (Model.list m))%Z).
Proof.
  unfold selectedSession.
  destruct (Nat.eqb_spec (length (Model.sessions m)) 0) as [Hlen | Hlen].
  - split; [discriminate|]. split; [intros _; lia | reflexivity].
  - destruct (Z.ltb_spec (Index (Model.list m)) 0) as [Hneg | Hpos]; cbn [orb].
    + split; [discriminate|]. split; [now left | reflexivity].
    + destruct (Z.leb_spec (Z.of_nat (length (Model.sessions m))) (Index (Model.list m)))
        as [Hbig | Hin].
      * split; [discriminate|]. split; [now right | reflexivity].
      * split; [intros sel Hsel; split; [lia | exact Hsel]|].
        split; [|lia]. intros Hnone. apply lookup_ge_None in Hnone. lia.
Qed.

(** What [Update] does to the session list, the spinner frame and the
    repository root, message by message. *)
Lemma Update_frame (m : Model.t) (msg : Msg) :
  Model.sessions (fst (Update run m msg))
  = match msg with
    | sessionsLoadedMsg sessions None => sessions
    | _ => Model.sessions m
    end
  /\ Model.spinnerFrame (fst (Update run m msg))
     = match msg with
       | tickMsg => Z.rem (Model.spinnerFrame m + 1) 4
       | _ => Model.spinnerFrame m
       end
  /\ Model.repoRoot (fst (Update run m msg)) = Model.repoRoot m.
Proof.
  unfold_Update. destruct msg; split_cases; repeat split; reflexivity.
Qed.

(** X22: the session list of the model is replaced whole, and only by a
    [sessionsLoadedMsg] without error; no key press, task result or failed
    cycle changes it. *)
Theorem sessions_replaced_only_by_cycle (m : Model.t) (msg : Msg) :
  Model.sessions (fst (Update run m msg))
  = match msg with
    | sessionsLoadedMsg sessions None => sessions
    | _ => Model.sessions m
    end.
Proof. apply Update_frame. Qed.

(** X23: whenever [Update] dispatches an enrichment cycle, alone or in a
    batch, the model it returns is in the loading state. *)
Theorem cycle_in_flight_is_loading (m : Model.t) (msg : Msg) (c : Cmd.t) :
  snd (Update run m msg) = Some c ->
  dispatches isFetch c = true ->
  Model.loading (fst (Update run m msg)) = true.
Proof.
  unfold_Update. destruct msg; split_cases; intros Hc;
    first [discriminate Hc
          | injection Hc as <-; intros Hd; first [discriminate Hd | reflexivity]].
Qed.

(** X24: [Update] dispatches the deletion of a worktree only from
    [ConfirmDelete], for the repository root of the model and the path and
    branch of the session selected at that moment; and only the key [d] in
    [Normal], on a selected session whose path is not the repository
    root, leads into [ConfirmDelete]. *)
Theorem delete_is_confirmed (m : Model.t) (msg : Msg) :
  (forall root path branch : string,
      snd (Update run m msg) = Some (Cmd.deleteWorktreeCmd root path branch) ->
      Model.state m = stateDeleteConfirm
      /\ root = Model.repoRoot m
      /\ exists sel : model.Session.t,
           selectedSession m = Some sel
           /\ path = model.Session.Path sel /\ branch = model.Session.Branch sel)
  /\ (Model.state m <> stateDeleteConfirm ->
      Model.state (fst (Update run m msg)) = stateDeleteConfirm ->
      Model.state m = stateNormal
      /\ msg = KeyMsg "d"
      /\ exists sel : model.Session.t,
           selectedSession m = Some sel
           /\ model.Session.Path sel <> Model.repoRoot m).
Proof.
  split.
  - intros root path branch. unfold_Update.
    destruct msg; split_cases; intros Hc;
      first [discriminate Hc
            | injection Hc as <- <- <-; repeat split; eauto].
  - intros Hnot. unfold_Update.
    destruct msg; split_cases; intros Hst;
      first [discriminate Hst | congruence | idtac].
    match goal with
    | Hd : keyIs _ "d" = true |- _ => apply String.eqb_eq in Hd as ->
    end.
    repeat split. eexists. split; [reflexivity|].
    match goal with
    | Hp : negb (String.eqb _ _) = true |- _ =>
        apply negb_true_iff, String.eqb_neq in Hp; exact Hp
    end.
Qed.

(** X25: [Update] dispatches the update of a review only from
    [ManageReview], for the forge of the model and the number of the
    review of the selected session, and always with a draft flag set, so
    that [UpdatePR] never takes its do-nothing path. *)
Theorem update_review_has_draft_flag (m : Model.t) (msg : Msg)
  (f : option forge.Forge) (number : Z) (opts : forge.UpdateOpts.t) :
  snd (Update run m msg) = Some (Cmd.updatePRCmd f number opts) ->
  Model.state m = stateManagePR
  /\ f = Model.forge m
  /\ is_Some (forge.UpdateOpts.Draft opts)
  /\ exists (sel : model.Session.t) (pr : model.PR.t),
       selectedSession m = Some sel
       /\ model.Session.PR sel = Some pr
       /\ number = model.PR.Number pr.
Proof.
  unfold_Update.
  destruct msg; split_cases; intros Hc;
    first [discriminate Hc
          | injection Hc as <- <- <-; repeat split; eauto].
Qed.

(** The type of a commit stays one of the table while the description is
    composed. *)
Lemma commitType_step (m : Model.t) (msg : Msg) :
  (Model.state m = stateCommit -> In (Model.commitType m) (map typ commitTypes)) ->
  Model.state (fst (Update run m msg)) = stateCommit ->
  In (Model.commitType (fst (Update run m msg))) (map typ commitTypes).
Proof.
  intros Hinv. unfold_Update.
  destruct msg; split_cases; intros Hst;
    first [discriminate Hst
          | apply Hinv; congruence
          | match goal with
            | Hf : _ = Some ?t |- context [typ ?t] =>
                repeat match type of Hf with
                       | context [if ?b then _ else _] => destruct b
                       end;
                first [discriminate Hf | injection Hf as <-; cbn; tauto]
            end].
Qed.

(** X26: from [Normal], the key [n] opens [NewSession] and dispatches only
    the cursor blink, and the key [esc] that follows returns to [Normal]
    with no command, the session list untouched and no error shown. *)
Theorem new_session_then_cancel (m : Model.t) :
  Model.state m = stateNormal ->
  let opened := Update run m (KeyMsg "n") in
  let cancelled := Update run (fst opened) (KeyMsg "esc") in
  Model.state (fst opened) = stateNewSession
  /\ snd opened = Some Cmd.Blink
  /\ Model.state (fst cancelled) = stateNormal
  /\ snd cancelled = None
  /\ Model.sessions (fst cancelled) = Model.sessions m
  /\ Model.inputErr (fst cancelled) = EmptyString.
Proof.
  intros Hst. cbn zeta. unfold Update, updateByState. rewrite Hst.
  unfold updateNormal. cbn. repeat split.
Qed.

(** X27: a submit with a blank field is refused: in [NewSession] with a
    blank branch name, in [ComposeCommit] with a blank description and in
    [CreateReview] with a blank title, the key [enter] dispatches nothing,
    leaves the state as it is and shows an error. *)
Theorem blank_input_is_refused (m : Model.t) :
  (Model.state m = stateNewSession \/ Model.state m = stateCommit ->
   strings.TrimSpace (Value (Model.nameInput m)) = EmptyString ->
   snd (Update run m (KeyMsg "enter")) = None
   /\ Model.state (fst (Update run m (KeyMsg "enter"))) = Model.state m
   /\ Model.inputErr (fst (Update run m (KeyMsg "enter"))) <> EmptyString)
  /\ (Model.state m = stateCreatePR ->
      strings.TrimSpace (Value (Model.createPRTitle m)) = EmptyString ->
      snd (Update run m (KeyMsg "enter")) = None
      /\ Model.state (fst (Update run m (KeyMsg "enter"))) = Model.state m
      /\ Model.inputErr (fst (Update run m (KeyMsg "enter"))) = "title cannot be empty").
Proof.
  split.
  - intros [Hst | Hst] Hblank; unfold Update, updateByState; rewrite Hst;
      unfold updateNewSession, updateCommit; cbn -[String.eqb];
      rewrite Hblank; cbn; repeat split; congruence.
  - intros Hst Hblank. unfold Update, updateByState. rewrite Hst.
    unfold updateCreatePR. cbn -[String.eqb]. rewrite Hblank. cbn.
    repeat split; congruence.
Qed.

Context `{forge.JSON}.

Lemma reachable_frame (m : Model.t) :
  reachable run m ->
  (0 <= Model.spinnerFrame m < 4)%Z
  /\ Model.repoRoot m = fst (git.RepoRoot run)
  /\ (Model.state m = stateCommit -> In (Model.commitType m) (map typ commitTypes)).
Proof.
  intros Hreach. induction Hreach as [|m msg _ (Hframe & Hroot & Hcommit)].
  - split; [|split].
    + change (Model.spinnerFrame (New run)) with 0%Z. lia.
    + reflexivity.
    + intros Hst. discriminate Hst.
  - destruct (Update_frame m msg) as (_ & Hf & Hr). split; [|split].
    + rewrite Hf. destruct msg; try exact Hframe.
      apply Z.rem_bound_pos; lia.
    + now rewrite Hr.
    + now apply commitType_step.
Qed.

Lemma reachable_steps (m : Model.t) (msgs : list Msg) :
  reachable run m -> reachable run (steps run m msgs).
Proof.
  revert m. induction msgs as [|msg msgs IH]; intros m Hreach; [exact Hreach|].
  cbn [steps fold_left]. apply IH. now apply reach_Update.
Qed.

(** X28: in every model the program reaches the spinner frame is an index
    of [spinnerFrames], so [buildItems] never reads outside the table, and
    the repository root is the one found at start. *)
Theorem spinner_frame_in_range (m : Model.t) :
  reachable run m ->
  (0 <= Model.spinnerFrame m < Z.of_nat (length spinnerFrames))%Z
  /\ is_Some (spinnerFrames !! Z.to_nat (Model.spinnerFrame m))
  /\ Model.repoRoot m = fst (git.RepoRoot run).
Proof.
  intros Hreach. destruct (reachable_frame m Hreach) as (Hframe & Hroot & _).
  split; [exact Hframe|]. split; [|exact Hroot].
  apply lookup_lt_is_Some. cbn [length spinnerFrames]. lia.
Qed.

(** X29: every commit the program dispatches has a conventional message:
    it is dispatched from [ComposeCommit] for the path of the selected
    session, and its message is a type of the table [commitTypes], a
    colon and a space, and a description that is not blank. *)
Theorem commit_message_is_conventional (m : Model.t) (msg : Msg)
  (path message : string) :
  reachable run m ->
  snd (Update run m msg) = Some (Cmd.commitCmd path message) ->
  Model.state m = stateCommit
  /\ (exists sel : model.Session.t,
         selectedSession m = Some sel /\ path = model.Session.Path sel)
  /\ exists t desc : string,
       In t (map typ commitTypes)
       /\ desc <> EmptyString
       /\ message = t +:+ ": " +:+ desc.
Proof.
  intros Hreach. destruct (reachable_frame m Hreach) as (_ & _ & Hcommit).
  revert Hcommit. unfold_Update.
  destruct msg; split_cases; intros Hcommit Hc;
    first [discriminate Hc
          | injection Hc as <- <-;
            split; [reflexivity|]; split; [eauto|];
            eexists _, _; split; [apply Hcommit; reflexivity|];
            split; [|reflexivity];
            match goal with
            | Hb : String.eqb _ _ = false |- _ => now apply String.eqb_neq in Hb
            end].
Qed.

End WithBubbles.

Lemma Title_shows_attention_witness :
  strings.HasPrefix (item.Title (mkItem (fixture.featWith None true) "/")) "▲"
  = model.Session.NeedsInput (s (mkItem (fixture.featWith None true) "/"))
  /\ (model.Session.NeedsInput (s (mkItem (fixture.featWith None true) "/")) = false ->
      model.Session.TmuxRunning (s (mkItem (fixture.featWith None true) "/")) = true ->
      item.Title (mkItem (fixture.featWith None true) "/")
      = spinnerChar (mkItem (fixture.featWith None true) "/") +:+ " "
        +:+ model.Session.Slug (s (mkItem (fixture.featWith None true) "/")))
  /\ item.FilterValue (mkItem (fixture.featWith None true) "/")
     = model.Session.Slug (s (mkItem (fixture.featWith None true) "/")).
Proof.
  apply (Title_shows_attention (mkItem (fixture.featWith None true) "/")).
  cbn. tauto.
Defined.

Lemma cycle_in_flight_is_loading_witness :
  Model.loading
    (fst (Update (H := fixture.ascii) fixture.host fixture.start (pushResultMsg None)))
  = true.
Proof.
  apply (cycle_in_flight_is_loading (H := fixture.ascii) fixture.host fixture.start
           (pushResultMsg None)
           (Cmd.Batch [Cmd.fetchSessionsCmd (Model.forge fixture.start);
                       Cmd.clearStatusCmd])); reflexivity.
Defined.

Lemma update_review_has_draft_flag_witness :
  let managing :=
    steps (H := fixture.ascii) fixture.host fixture.start
      [sessionsLoadedMsg [fixture.featWith (Some fixture.green) false] None;
       KeyMsg "m"] in
  Model.state managing = stateManagePR
  /\ Some (fixture.github []) = Model.forge managing
  /\ is_Some (forge.UpdateOpts.Draft (forge.UpdateOpts.mk (Some true)))
  /\ exists (sel : model.Session.t) (pr : model.PR.t),
       selectedSession managing = Some sel
       /\ model.Session.PR sel = Some pr
       /\ 7%Z = model.PR.Number pr.
Proof.
  apply (update_review_has_draft_flag (H := fixture.ascii) fixture.host
           (steps (H := fixture.ascii) fixture.host fixture.start
              [sessionsLoadedMsg [fixture.featWith (Some fixture.green) false] None;
               KeyMsg "m"])
           (KeyMsg "d")).
  reflexivity.
Defined.

Lemma new_session_then_cancel_witness :
  let opened := Update (H := fixture.ascii) fixture.host fixture.start (KeyMsg "n") in
  let cancelled := Update (H := fixture.ascii) fixture.host (fst opened) (KeyMsg "esc") in
  Model.state (fst opened) = stateNewSession
  /\ snd opened = Some Cmd.Blink
  /\ Model.state (fst cancelled) = stateNormal
  /\ snd cancelled = None
  /\ Model.sessions (fst cancelled) = Model.sessions fixture.start
  /\ Model.inputErr (fst cancelled) = EmptyString.
Proof.
  apply (new_session_then_cancel (H := fixture.ascii) fixture.host fixture.start).
  reflexivity.
Defined.

Lemma blank_input_is_refused_witness :
  let composing :=
    steps (H := fixture.ascii) fixture.host fixture.start [KeyMsg "n"] in
  snd (Update (H := fixture.ascii) fixture.host composing (KeyMsg "enter")) = None
  /\ Model.state (fst (Update (H := fixture.ascii) fixture.host composing (KeyMsg "enter")))
     = Model.state composing
  /\ Model.inputErr
       (fst (Update (H := fixture.ascii) fixture.host composing (KeyMsg "enter")))
     <> EmptyString.
Proof.
  apply (proj1 (blank_input_is_refused (H := fixture.ascii) fixture.host
                  (steps (H := fixture.ascii) fixture.host fixture.start [KeyMsg "n"]))).
  - left. reflexivity.
  - reflexivity.
Defined.

Lemma spinner_frame_in_range_witness :
  (0 <= Model.spinnerFrame
          (fst (Update (H := fixture.ascii) fixture.host fixture.start tickMsg))
   < Z.of_nat (length spinnerFrames))%Z
  /\ is_Some (spinnerFrames
                !! Z.to_nat (Model.spinnerFrame
                               (fst (Update (H := fixture.ascii) fixture.host
                                       fixture.start tickMsg))))
  /\ Model.repoRoot (fst (Update (H := fixture.ascii) fixture.host fixture.start tickMsg))
     = fst (git.RepoRoot (H := fixture.ascii) fixture.host).
Proof.
  apply (spinner_frame_in_range (H := fixture.ascii) (H1 := fixture.json [] [])
           fixture.host).
  apply reach_Update, reach_New.
Defined.

Lemma commit_message_is_conventional_witness :
  let composing :=
    steps (H := fixture.ascii) (H0 := typing.bubbles) fixture.host typing.start
      [sessionsLoadedMsg [fixture.featWith None false] None;
       KeyMsg "c"; KeyMsg "x"; KeyMsg "o"; KeyMsg "k"] in
  Model.state composing = stateCommit
  /\ (exists sel : model.Session.t,
         selectedSession composing = Some sel
         /\ "/repo/.claude/worktrees/feat-x" = model.Session.Path sel)
  /\ exists t desc : string,
       In t (map typ commitTypes)
       /\ desc <> EmptyString
       /\ "fix: ok" = t +:+ ": " +:+ desc.
Proof.
  cbn zeta.
  apply (commit_message_is_conventional (H := fixture.ascii) (H0 := typing.bubbles)
           (H1 := fixture.json [] []) fixture.host _ (KeyMsg "enter")).
  - apply reachable_steps, reach_New.
  - reflexivity.
Defined.

End tui_more.
